(** * openchirp framework: the service management layer and its REST client

    A shallow embedding of [service.go] (package [framework]) and of the
    service part of package [rest], with the properties of the
    update multiplexer, the broker session and the REST operations.

    Layout: [Go] holds the few pieces of the Go run time the code leans on
    (nil-able slices and maps, buffered channels); [rest] and [framework]
    follow the two packages; the properties come last. *)

From stdpp Require Import gmap strings list.
From Stdlib Require Import ZArith Ascii DecimalString DecimalPos DecimalZ.

Local Open Scope Z_scope.
#[local] Set Warnings "-register-all".

(** ** The Go run time, as far as the two packages use it *)
Module Go.

(** The newline that Println and the log formats end a line with. *)
Definition LF : string := String (Ascii.ascii_of_nat 10) "".

(** A slice is either the nil slice or a (possibly empty) backed one; the
    two differ for callers that compare with nil and for encoding/json. *)
Inductive slice (A : Type) : Type :=
| nil_slice
| mk_slice (elems : list A).
Arguments nil_slice {A}.
Arguments mk_slice {A} elems.

Definition elems {A} (s : slice A) : list A :=
  match s with nil_slice => [] | mk_slice l => l end.

Definition is_nil {A} (s : slice A) : bool :=
  match s with nil_slice => true | mk_slice _ => false end.

(** [make([]T, 0)] *)
Definition make_slice {A} : slice A := mk_slice [].

(** [v, ok := m[key]] on a [map[string]string]; [None] is the nil map,
    which may be read like an empty one. *)
Definition map_index (m : option (gmap string string)) (key : string) : string * bool :=
  match m with
  | None => ("", false)
  | Some g => match g !! key with
              | Some v => (v, true)
              | None => ("", false)
              end
  end.

(** A buffered channel: what is queued, its capacity, and whether [close]
    has been called on it. *)
Record chan (A : Type) : Type := Chan {
  buf : list A;
  cap : nat;
  closed : bool;
}.
Arguments Chan {A} buf cap closed.
Arguments buf {A} c.
Arguments cap {A} c.
Arguments closed {A} c.

(** [make(chan T, n)] *)
Definition make_chan {A} (n : nat) : chan A := Chan [] n false.

(** [ch <- v] on a non-nil channel. *)
Inductive send_result (A : Type) : Type :=
| SendDone (c : chan A)      (* v is queued *)
| SendBlocks                 (* the buffer is full: the sender waits *)
| SendPanics.                (* send on closed channel *)
Arguments SendDone {A} c.
Arguments SendBlocks {A}.
Arguments SendPanics {A}.

Definition chan_send {A} (c : chan A) (v : A) : send_result A :=
  if closed c then SendPanics
  else if (length (buf c) <? cap c)%nat then SendDone (Chan (buf c ++ [v]) (cap c) false)
  else SendBlocks.

(** [v, ok := <-ch] on a non-nil channel: what is buffered is handed out
    first, also after [close]; only a closed and drained channel answers
    [ok = false]. *)
Inductive recv_result (A : Type) : Type :=
| RecvValue (v : A) (c : chan A)   (* ok = true *)
| RecvClosed                       (* the zero value, ok = false *)
| RecvBlocks.                      (* open and empty: the receiver waits *)
Arguments RecvValue {A} v c.
Arguments RecvClosed {A}.
Arguments RecvBlocks {A}.

Definition chan_recv {A} (c : chan A) : recv_result A :=
  match buf c with
  | v :: rest => RecvValue v (Chan rest (cap c) (closed c))
  | [] => if closed c then RecvClosed else RecvBlocks
  end.

(** [close(ch)] on a non-nil channel; [None] is the panic
    "close of closed channel". *)
Definition chan_close {A} (c : chan A) : option (chan A) :=
  if closed c then None else Some (Chan (buf c) (cap c) true).

End Go.

(** ** Package rest: service nodes and the REST operations on them *)
Module rest.
Import Go.

(** Modelled from the spec: the node descriptor types (owner, pub/sub
    end point, node descriptor) are declared in a file of package rest
    that is not at hand; they carry the fields the code below reads and
    writes (the spec's "node-descriptor subset: name, id, pubsub-topic,
    owner"). *)
Record Owner : Type := mkOwner {
  Owner_Id : string;
}.

Record PubSub : Type := mkPubSub {
  Topic : string;
}.

Record NodeDescriptor : Type := mkNodeDescriptor {
  Name : string;
  ID : string;
  Pubsub : PubSub;
  Owner_ : Owner;
}.

Record ServiceConfigParameter : Type := mkServiceConfigParameter {
  key_name : string;
  key_description : string;
  key_example : string;
  key_required : bool;
}.

(** ServiceNode embeds its NodeDescriptor. *)
Record ServiceNode : Type := mkServiceNode {
  Descriptor : NodeDescriptor;
  Description : string;
  Properties : option (gmap string string);
  ConfigParameters : slice ServiceConfigParameter;
}.

Record ServiceCreateRequest : Type := mkServiceCreateRequest {
  req_Name : string;
  req_Description : string;
  req_Properties : option (gmap string string);
  req_ConfigParameters : slice ServiceConfigParameter;
}.

Record KeyValuePair : Type := mkKeyValuePair {
  Key : string;
  Value : string;
}.

Record ServiceDeviceListItem : Type := mkServiceDeviceListItem {
  Id : string;
  Config : slice KeyValuePair;
}.

(** The anonymous struct ServiceCreate decodes the reply into: the owner
    arrives as a plain string. *)
Record hackServiceNode : Type := mkHackServiceNode {
  hack_OwnerID : string;
  hack_Name : string;
  hack_ID : string;
  hack_Pubsub : PubSub;
  hack_Description : string;
  hack_Properties : option (gmap string string);
  hack_ConfigParameters : slice ServiceConfigParameter;
}.

(** Zero values, as [var x T] leaves them. *)
Definition zero_PubSub : PubSub := mkPubSub "".
Definition zero_Owner : Owner := mkOwner "".
Definition zero_NodeDescriptor : NodeDescriptor :=
  mkNodeDescriptor "" "" zero_PubSub zero_Owner.
Definition zero_ServiceNode : ServiceNode :=
  mkServiceNode zero_NodeDescriptor "" None nil_slice.
Definition zero_ServiceDeviceListItem : ServiceDeviceListItem :=
  mkServiceDeviceListItem "" nil_slice.
Definition zero_hackServiceNode : hackServiceNode :=
  mkHackServiceNode "" "" "" zero_PubSub "" None nil_slice.

Definition GetID (i : ServiceDeviceListItem) : string := Id i.

(** The loop [m[v.Key] = v.Value] over [i.Config], into a fresh map. *)
Definition GetConfigMap (i : ServiceDeviceListItem) : gmap string string :=
  foldl (λ m v, <[Key v := Value v]> m) ∅ (elems (Config i)).

(** *** HTTP and JSON, as the package sees them *)

Record Request : Type := mkRequest {
  Method : string;
  URL : string;
  ReqBody : option string;
  Header : list (string * string);
  BasicAuth : option (string * string);
}.

Record Response : Type := mkResponse {
  StatusCode : Z;
  Status : string;
  Body : string;
}.

Definition SetBasicAuth (req : Request) (user pass : string) : Request :=
  mkRequest (Method req) (URL req) (ReqBody req) (Header req) (Some (user, pass)).

Definition Header_Add (req : Request) (k v : string) : Request :=
  mkRequest (Method req) (URL req) (ReqBody req) (Header req ++ [(k, v)]) (BasicAuth req).

(** An error value, by the call that made it. *)
Inductive error : Type :=
| RequestError (msg : string)     (* http.NewRequest *)
| MarshalError (msg : string)     (* json.Marshal *)
| TransportError (msg : string)   (* host.client.Do *)
| StatusError (text : string)     (* fmt.Errorf(resp.Status) *)
| DecodeError (msg : string).     (* Decode of a json.Decoder *)

(** A JSON text, once scanned. *)
Inductive json : Type :=
| JNull
| JBool (b : bool)
| JNumber (literal : string)
| JString (s : string)
| JArray (items : list json)
| JObject (members : list (string * json)).

(** A format with no percent sign holds no verb: fmt prints it as it
    stands. *)
Fixpoint verbatim (format : string) : bool :=
  match format with
  | EmptyString => true
  | String c rest => if decide (c = "%"%char) then false else verbatim rest
  end.

(** What package rest takes from outside this file: the constants of its
    sibling files and the library calls it makes.  [http_NewRequest_err]
    is the error of [http.NewRequest] (a method or URL it refuses);
    [fmt_Errorf] is the text of [fmt.Errorf(format)] called without
    operands; [json_scan] is the scanner of encoding/json; the [json_...]
    decoders fill a value of the given type from a JSON text, and report
    the first mismatch. *)
Class Platform : Type := {
  rootAPISubPath : string;
  servicesSubPath : string;
  serviceDevicesSubPath : string;
  httpStatusCodeOK : Z;
  http_NewRequest_err : string → string → option string → option string;
  fmt_Errorf : string → string;
  json_scan : string → json + string;
  json_Marshal : ServiceCreateRequest → string + string;
  json_ServiceNode : string → ServiceNode → ServiceNode * option string;
  json_hackServiceNode : string → hackServiceNode → hackServiceNode * option string;
  json_ServiceDeviceListItem : json → ServiceDeviceListItem → ServiceDeviceListItem * option string;
}.

(** Host: the base URI, the credentials and the HTTP client, whose [Do]
    answers a request with a response or a transport error. *)
Record Host : Type := mkHost {
  uri : string;
  user : string;
  pass : string;
  client : Request → Response + string;
}.

(** What an operation did on the way, in order. *)
Inductive Event : Type :=
| EvPrintln (line : string)
| EvDo (req : Request)
| EvDecode (body : string)
| EvBodyClose.

Section Operations.
Context `{Platform}.

(** [http.NewRequest(method, uri, body)] *)
Definition http_NewRequest (method uri : string) (body : option string) : Request + string :=
  match http_NewRequest_err method uri body with
  | Some err => inr err
  | None => inl (mkRequest method uri body [] None)
  end.

(** The name encoding/json gives the kind of a value in the text of a
    type mismatch. *)
Definition json_kind (j : json) : string :=
  match j with
  | JNull => "null"
  | JBool _ => "bool"
  | JNumber _ => "number"
  | JString _ => "string"
  | JArray _ => "array"
  | JObject _ => "object"
  end.

(** [json.NewDecoder(body).Decode(&items)] for [items []ServiceDeviceListItem]:
    null makes the slice nil, an array resets it and appends one decoded
    element per item (an empty array leaves an empty, non-nil slice), any
    other value is a type mismatch that leaves the slice alone. *)
Definition json_ServiceDeviceListItems (body : string) (v : slice ServiceDeviceListItem)
  : slice ServiceDeviceListItem * option string :=
  match json_scan body with
  | inr err => (v, Some err)
  | inl JNull => (nil_slice, None)
  | inl (JArray items) =>
      let rs := map (λ j, json_ServiceDeviceListItem j zero_ServiceDeviceListItem) items in
      (mk_slice (map fst rs), head (omap snd rs))
  | inl j =>
      (v, Some ("json: cannot unmarshal " +:+ json_kind j
                +:+ " into Go value of type []rest.ServiceDeviceListItem"))
  end.

Definition RequestServiceInfo (host : Host) (serviceid : string)
  : (ServiceNode * option error) * list Event :=
  let serviceNode := zero_ServiceNode in
  let uri := uri host +:+ rootAPISubPath +:+ servicesSubPath +:+ "/" +:+ serviceid in
  match http_NewRequest "GET" uri None with
  | inr err => ((serviceNode, Some (RequestError err)), [])
  | inl req =>
      let req := SetBasicAuth req (user host) (pass host) in
      match client host req with
      | inr err => ((serviceNode, Some (TransportError err)), [EvDo req])
      | inl resp =>
          if decide (StatusCode resp ≠ httpStatusCodeOK) then
            ((serviceNode, Some (StatusError (fmt_Errorf (Status resp)))),
             [EvDo req; EvBodyClose])
          else
            let '(serviceNode, err) := json_ServiceNode (Body resp) serviceNode in
            ((serviceNode, DecodeError <$> err),
             [EvDo req; EvDecode (Body resp); EvBodyClose])
      end
  end.

Definition RequestServiceDeviceList (host : Host) (serviceid : string)
  : (slice ServiceDeviceListItem * option error) * list Event :=
  let serviceDeviceListItems := make_slice in
  let uri := uri host +:+ rootAPISubPath +:+ servicesSubPath +:+ "/" +:+ serviceid
             +:+ serviceDevicesSubPath in
  let out := [EvPrintln ("Service URI:  " +:+ uri +:+ LF)] in
  match http_NewRequest "GET" uri None with
  | inr err => ((serviceDeviceListItems, Some (RequestError err)), out)
  | inl req =>
      let req := SetBasicAuth req (user host) (pass host) in
      match client host req with
      | inr err => ((serviceDeviceListItems, Some (TransportError err)), out ++ [EvDo req])
      | inl resp =>
          if decide (StatusCode resp ≠ httpStatusCodeOK) then
            ((serviceDeviceListItems, Some (StatusError (fmt_Errorf (Status resp)))),
             out ++ [EvDo req; EvBodyClose])
          else
            let '(serviceDeviceListItems, err) :=
              json_ServiceDeviceListItems (Body resp) serviceDeviceListItems in
            ((serviceDeviceListItems, DecodeError <$> err),
             out ++ [EvDo req; EvDecode (Body resp); EvBodyClose])
      end
  end.

Definition ServiceCreate (host : Host) (name description : string)
    (properties : option (gmap string string))
    (configParams : slice ServiceConfigParameter)
  : (ServiceNode * option error) * list Event :=
  let serviceNode := zero_ServiceNode in
  let uri := uri host +:+ rootAPISubPath +:+ servicesSubPath in
  let serviceReq := mkServiceCreateRequest name description None nil_slice in
  let serviceReq :=
    match properties with
    | Some _ => mkServiceCreateRequest (req_Name serviceReq) (req_Description serviceReq)
                  properties (req_ConfigParameters serviceReq)
    | None => serviceReq
    end in
  let serviceReq :=
    if is_nil configParams then serviceReq
    else mkServiceCreateRequest (req_Name serviceReq) (req_Description serviceReq)
           (req_Properties serviceReq) configParams in
  match json_Marshal serviceReq with
  | inr err => ((serviceNode, Some (MarshalError err)), [])
  | inl body =>
      let out := [EvPrintln ("Request is: " +:+ body +:+ LF)] in
      match http_NewRequest "POST" uri (Some body) with
      | inr err => ((serviceNode, Some (RequestError err)), out)
      | inl req =>
          let req := Header_Add req "Content-Type" "application/json" in
          let req := SetBasicAuth req (user host) (pass host) in
          match client host req with
          | inr err => ((serviceNode, Some (TransportError err)), out ++ [EvDo req])
          | inl resp =>
              if decide (StatusCode resp ≠ httpStatusCodeOK) then
                ((serviceNode, Some (StatusError (fmt_Errorf (Status resp)))),
                 out ++ [EvDo req; EvBodyClose])
              else
                let '(hack, err) := json_hackServiceNode (Body resp) zero_hackServiceNode in
                let serviceNode :=
                  mkServiceNode
                    (mkNodeDescriptor (hack_Name hack) (hack_ID hack) (hack_Pubsub hack)
                       (mkOwner (hack_OwnerID hack)))
                    (hack_Description hack) (hack_Properties hack)
                    (hack_ConfigParameters hack) in
                ((serviceNode, DecodeError <$> err),
                 out ++ [EvDo req; EvDecode (Body resp); EvBodyClose])
          end
      end
  end.

Definition ServiceDelete (host : Host) (serviceid : string) : option error * list Event :=
  let uri := uri host +:+ rootAPISubPath +:+ servicesSubPath +:+ "/" +:+ serviceid in
  match http_NewRequest "DELETE" uri None with
  | inr err => (Some (RequestError err), [])
  | inl req =>
      let req := SetBasicAuth req (user host) (pass host) in
      match client host req with
      | inr err => (Some (TransportError err), [EvDo req])
      | inl resp =>
          if decide (StatusCode resp ≠ httpStatusCodeOK) then
            (Some (StatusError (fmt_Errorf (Status resp))), [EvDo req; EvBodyClose])
          else (None, [EvDo req; EvBodyClose])
      end
  end.

(** *** Vocabulary of the properties *)

(** The operation whose trace is [evs] ran the JSON decoder. *)
Definition decoded (evs : list Event) : Prop := ∃ body, EvDecode body ∈ evs.

(** The failure modes of a REST operation that ended with [err] after
    doing [evs], [decode_err] being the error of decoding a reply into
    its result type.  If a request went out, the error follows from the
    client's answer to it: a transport error, a status error when the
    status is not OK, else whatever decoding reports.  If none went out,
    the request could not be built. *)
Definition failure_modes (host : Host) (evs : list Event) (err : option error)
    (decode_err : string → option string) : Prop :=
  (∀ req, EvDo req ∈ evs →
     err = match client host req with
           | inr msg => Some (TransportError msg)
           | inl resp =>
               if decide (StatusCode resp ≠ httpStatusCodeOK)
               then Some (StatusError (fmt_Errorf (Status resp)))
               else DecodeError <$> decode_err (Body resp)
           end)
  ∧ ((∀ req, EvDo req ∉ evs) →
     ∃ msg, err = Some (RequestError msg) ∨ err = Some (MarshalError msg)).

End Operations.
End rest.

(** ** Package framework: the service context *)
Module framework.
Import Go.

Definition deviceUpdatesBuffering : nat := 10.
Definition mqttPersistence : bool := false.

Definition DeviceUpdateTypeAdd : Z := 0.
Definition DeviceUpdateTypeRem : Z := 1.
Definition DeviceUpdateTypeUpd : Z := 2.

(** Modelled from the spec: the device-update record and the envelope
    that wraps it on the wire are declared in a file of package framework
    that is not at hand ("the device identifier and configuration pairs
    affected"; "a JSON envelope wrapping a device-update record under a
    fixed field name"). *)
Record ServiceDeviceUpdate : Type := mkServiceDeviceUpdate {
  Id : string;
  Config : slice rest.KeyValuePair;
}.

Record ServiceUpdatesEncapsulation : Type := mkServiceUpdatesEncapsulation {
  Thing : ServiceDeviceUpdate;
}.

(** DeviceUpdate embeds the ServiceDeviceUpdate it announces. *)
Record DeviceUpdate : Type := mkDeviceUpdate {
  Type_ : Z;
  Embedded : ServiceDeviceUpdate;
}.

(** The three function literals StartDeviceUpdates hands to Subscribe. *)
Inductive TopicHandler : Type :=
| onThingNew
| onThingRemove
| onThingUpdate.

(** The broker client behind [s.mqtt], as a test double: the error each
    coming Subscribe, Unsubscribe and Publish token will carry, in order
    ([None], or nothing left: acknowledged), and the callbacks it holds
    by topic.  A rejected Subscribe registers nothing and a rejected
    Unsubscribe removes nothing. *)
Record Client : Type := mkClient {
  sub_acks : list (option string);
  unsub_acks : list (option string);
  pub_acks : list (option string);
  routes : gmap string TopicHandler;
}.

(** The service context; what its logger [s.log] prints goes to the
    trace. *)
Record Service : Type := mkService {
  id : string;
  host : rest.Host;
  mqtt : Client;
  node : rest.ServiceNode;
  updates : option nat;      (* a channel of the heap; None is nil *)
}.

(** What the service did, in order. *)
Inductive Event : Type :=
| EvSubscribe (topic : string) (qos : Z) (callback : TopicHandler) (err : option string)
| EvUnsubscribe (topic : string) (err : option string)
| EvPublish (topic : string) (qos : Z) (retained : bool) (payload : string) (err : option string)
| EvMake (c : nat) (size : nat)
| EvClose (c : option nat)
| EvSend (c : option nat) (u : DeviceUpdate)
| EvRecv (c : option nat)
| EvLog (line : string).

(** The struct behind the [*Service] pointer, the channels made so far
    (a channel value is its index here) and the trace. *)
Record State : Type := mkState {
  svc : Service;
  chans : list (chan DeviceUpdate);
  events : list Event;
}.

(** How a call ends: it returns, its goroutine waits in a channel
    operation, or it panics. *)
Inductive Result (A : Type) : Type :=
| Returned (a : A) (st : State)
| Blocked (on : Event) (st : State)
| Panicked (msg : string) (st : State).
Arguments Returned {A} a st.
Arguments Blocked {A} on st.
Arguments Panicked {A} msg st.

Definition M (A : Type) : Type := State → Result A.

#[export] Instance M_ret : MRet M := λ A a st, Returned a st.
#[export] Instance M_bind : MBind M := λ A B f m st,
  match m st with
  | Returned a st' => f a st'
  | Blocked on st' => Blocked on st'
  | Panicked msg st' => Panicked msg st'
  end.

Definition returned {A} (r : Result A) : option A :=
  match r with
  | Returned a _ => Some a
  | _ => None
  end.

Definition state_of {A} (r : Result A) : State :=
  match r with
  | Returned _ st | Blocked _ st | Panicked _ st => st
  end.

Definition with_svc (st : State) (s : Service) : State :=
  mkState s (chans st) (events st).
Definition with_chans (st : State) (cs : list (chan DeviceUpdate)) : State :=
  mkState (svc st) cs (events st).
Definition with_mqtt (s : Service) (c : Client) : Service :=
  mkService (id s) (host s) c (node s) (updates s).
Definition with_updates (s : Service) (u : option nat) : Service :=
  mkService (id s) (host s) (mqtt s) (node s) u.

Definition emit (e : Event) : M unit :=
  λ st, Returned () (mkState (svc st) (chans st) (events st ++ [e])).

Definition get_updates : M (option nat) := λ st, Returned (updates (svc st)) st.
Definition set_updates (u : option nat) : M unit :=
  λ st, Returned () (with_svc st (with_updates (svc st) u)).

(** [make(chan DeviceUpdate, n)] *)
Definition make (n : nat) : M nat :=
  λ st, let c := length (chans st) in
        Returned c (mkState (svc st) (chans st ++ [make_chan n]) (events st ++ [EvMake c n])).

(** [close(ch)]; the trace keeps the attempt. *)
Definition close (ch : option nat) : M unit :=
  λ st,
    let st := mkState (svc st) (chans st) (events st ++ [EvClose ch]) in
    match ch with
    | None => Panicked "close of nil channel" st
    | Some c =>
        match chans st !! c with
        | None => Panicked "no such channel" st
        | Some q =>
            match chan_close q with
            | None => Panicked "close of closed channel" st
            | Some q' => Returned () (with_chans st (<[c := q']> (chans st)))
            end
        end
    end.

(** [ch <- u]; a send on the nil channel waits forever. *)
Definition send (ch : option nat) (u : DeviceUpdate) : M unit :=
  λ st,
    match ch with
    | None => Blocked (EvSend None u) st
    | Some c =>
        match chans st !! c with
        | None => Panicked "no such channel" st
        | Some q =>
            match chan_send q u with
            | SendPanics => Panicked "send on closed channel" st
            | SendBlocks => Blocked (EvSend ch u) st
            | SendDone q' =>
                Returned () (mkState (svc st) (<[c := q']> (chans st))
                                     (events st ++ [EvSend ch u]))
            end
        end
    end.

(** [u, ok := <-ch], by the holder of the handle StartDeviceUpdates
    returned; [None] stands for [ok = false]. *)
Definition receive (ch : option nat) : M (option DeviceUpdate) :=
  λ st,
    match ch with
    | None => Blocked (EvRecv None) st
    | Some c =>
        match chans st !! c with
        | None => Panicked "no such channel" st
        | Some q =>
            match chan_recv q with
            | RecvBlocks => Blocked (EvRecv ch) st
            | RecvClosed => Returned None (mkState (svc st) (chans st) (events st ++ [EvRecv ch]))
            | RecvValue u q' =>
                Returned (Some u) (mkState (svc st) (<[c := q']> (chans st))
                                           (events st ++ [EvRecv ch]))
            end
        end
    end.

(** [n] receives in a row, stopping at the first that reports closed. *)
Fixpoint receive_n (ch : option nat) (n : nat) : M (list DeviceUpdate) :=
  match n with
  | O => mret []
  | S n' =>
      r ← receive ch;
      match r with
      | None => mret []
      | Some u => us ← receive_n ch n'; mret (u :: us)
      end
  end.

(** What package framework takes from outside this file: the package
    variable [mqttQos] (set from the command line) and
    [json.Unmarshal(payload, &mqttMsg)] for the envelope. *)
Class Runtime : Type := {
  mqttQos : Z;
  json_Unmarshal : string → ServiceUpdatesEncapsulation + string;
}.

(** [big.Int.String]: base 10. *)
Definition big_String (r : Z) : string := NilZero.string_of_int (Z.to_int r).

(** [crypto/rand.Int(rand.Reader, max)] *)
Inductive RandInt : Type :=
| RandOk (r : Z)
| RandErr (msg : string).

(** A value, or the process is gone through [log.Fatal]. *)
Inductive Exit (A : Type) : Type :=
| Value (a : A)
| Fatal (msg : string).
Arguments Value {A} a.
Arguments Fatal {A} msg.

Definition genClientID (rand_Int : Z → RandInt) (s : Service) : Exit string :=
  match rand_Int 100000 with
  | RandErr _ => Fatal "Couldn't generate a random number for MQTT client ID"
  | RandOk r => Value (rest.ID (rest.Descriptor (node s)) +:+ "-" +:+ big_String r)
  end.

Section Service.
Context `{Runtime}.

(** [byte(mqttQos)] *)
Definition qos_byte : Z := mqttQos `mod` 256.

Definition next_ack (acks : list (option string)) : option string :=
  match acks with
  | [] => None
  | a :: _ => a
  end.

Definition Subscribe (topic : string) (callback : TopicHandler) : M (option string) :=
  λ st,
    let c := mqtt (svc st) in
    let err := next_ack (sub_acks c) in
    let c' := mkClient (tail (sub_acks c)) (unsub_acks c) (pub_acks c)
                (match err with
                 | None => <[topic := callback]> (routes c)
                 | Some _ => routes c
                 end) in
    Returned err (mkState (with_mqtt (svc st) c') (chans st)
                          (events st ++ [EvSubscribe topic qos_byte callback err])).

Definition Unsubscribe (topic : string) : M (option string) :=
  λ st,
    let c := mqtt (svc st) in
    let err := next_ack (unsub_acks c) in
    let c' := mkClient (sub_acks c) (tail (unsub_acks c)) (pub_acks c)
                (match err with
                 | None => delete topic (routes c)
                 | Some _ => routes c
                 end) in
    Returned err (mkState (with_mqtt (svc st) c') (chans st)
                          (events st ++ [EvUnsubscribe topic err])).

Definition Publish (topic : string) (payload : string) : M (option string) :=
  λ st,
    let c := mqtt (svc st) in
    let err := next_ack (pub_acks c) in
    let c' := mkClient (sub_acks c) (unsub_acks c) (tail (pub_acks c)) (routes c) in
    Returned err (mkState (with_mqtt (svc st) c') (chans st)
                          (events st ++ [EvPublish topic qos_byte mqttPersistence payload err])).

(** [s.log.Printf]: the line as formatted, without the logger's prefix
    and time stamp. *)
Definition Printf (line : string) : M unit := emit (EvLog line).

Definition pubsub_topic : M string :=
  λ st, Returned (rest.Topic (rest.Pubsub (rest.Descriptor (node (svc st))))) st.

(** The callbacks; each reads [s.updates] when it runs. *)
Definition thingNew (topic payload : string) : M unit :=
  match json_Unmarshal payload with
  | inr _ => Printf ("Failed to unmarshal message on topic " +:+ topic +:+ LF)
  | inl mqttMsg =>
      ch ← get_updates;
      send ch (mkDeviceUpdate DeviceUpdateTypeAdd (Thing mqttMsg))
  end.

Definition thingRemove (topic payload : string) : M unit :=
  match json_Unmarshal payload with
  | inr _ => Printf ("Failed to unmarshal message on topic " +:+ topic +:+ LF)
  | inl mqttMsg =>
      ch ← get_updates;
      send ch (mkDeviceUpdate DeviceUpdateTypeRem (Thing mqttMsg))
  end.

Definition thingUpdate (topic payload : string) : M unit :=
  match json_Unmarshal payload with
  | inr _ => Printf ("Failed to unmarshal message on topic " +:+ topic +:+ LF)
  | inl mqttMsg =>
      ch ← get_updates;
      send ch (mkDeviceUpdate DeviceUpdateTypeUpd (Thing mqttMsg))
  end.

Definition call (h : TopicHandler) : string → string → M unit :=
  match h with
  | onThingNew => thingNew
  | onThingRemove => thingRemove
  | onThingUpdate => thingUpdate
  end.

(** The broker client hands a message to the callback registered for
    its topic, if there is one. *)
Definition deliver (topic payload : string) : M unit :=
  λ st,
    match routes (mqtt (svc st)) !! topic with
    | Some h => call h topic payload st
    | None => Returned () st
    end.

Definition StartDeviceUpdates : M (option nat * option string) :=
  c ← make deviceUpdatesBuffering;
  set_updates (Some c);;
  root ← pubsub_topic;
  let topicAdd := root +:+ "/thing/new" in
  let topicRem := root +:+ "/thing/remove" in
  let topicUpd := root +:+ "/thing/update" in
  err ← Subscribe topicAdd onThingNew;
  match err with
  | Some _ => ch ← get_updates; close ch;; set_updates None
  | None => mret ()
  end;;
  err ← Subscribe topicRem onThingRemove;
  match err with
  | Some _ =>
      Unsubscribe topicAdd;;
      ch ← get_updates; close ch;; set_updates None
  | None => mret ()
  end;;
  err ← Subscribe topicUpd onThingUpdate;
  match err with
  | Some _ =>
      Unsubscribe topicAdd;;
      Unsubscribe topicRem;;
      ch ← get_updates; close ch;; set_updates None
  | None => mret ()
  end;;
  ch ← get_updates;
  mret (ch, err).

Definition StopDeviceUpdates : M unit :=
  root ← pubsub_topic;
  let topicAdd := root +:+ "/thing/new" in
  let topicRem := root +:+ "/thing/remove" in
  let topicUpd := root +:+ "/thing/update" in
  Unsubscribe topicAdd;;
  Unsubscribe topicRem;;
  Unsubscribe topicUpd;;
  ch ← get_updates;
  close ch.

Definition GetProperties (s : Service) : option (gmap string string) :=
  rest.Properties (node s).

Definition GetProperty (s : Service) (key : string) : string :=
  let '(value, ok) := map_index (rest.Properties (node s)) key in
  if ok then value else "".

(** *** Vocabulary of the properties *)

Definition root_topic (st : State) : string :=
  rest.Topic (rest.Pubsub (rest.Descriptor (node (svc st)))).
Definition topicAdd (st : State) : string := root_topic st +:+ "/thing/new".
Definition topicRem (st : State) : string := root_topic st +:+ "/thing/remove".
Definition topicUpd (st : State) : string := root_topic st +:+ "/thing/update".

(** [st], with a broker that will answer the coming Subscribe calls with
    [subs] and the coming Unsubscribe calls with [unsubs]. *)
Definition with_acks (st : State) (subs unsubs : list (option string)) : State :=
  mkState
    (with_mqtt (svc st)
       (mkClient subs unsubs (pub_acks (mqtt (svc st))) (routes (mqtt (svc st)))))
    (chans st) (events st).

(** The multiplexer is Active on queue [c]: [s.updates] is the open
    channel [c] and the three callbacks are registered, each for its
    topic. *)
Definition Active (c : nat) (st : State) : Prop :=
  updates (svc st) = Some c
  ∧ (∃ q, chans st !! c = Some q ∧ closed q = false)
  ∧ routes (mqtt (svc st)) !! topicAdd st = Some onThingNew
  ∧ routes (mqtt (svc st)) !! topicRem st = Some onThingRemove
  ∧ routes (mqtt (svc st)) !! topicUpd st = Some onThingUpdate.

(** The update kind each callback tags with, and the topic
    StartDeviceUpdates subscribes it to. *)
Definition kind (h : TopicHandler) : Z :=
  match h with
  | onThingNew => DeviceUpdateTypeAdd
  | onThingRemove => DeviceUpdateTypeRem
  | onThingUpdate => DeviceUpdateTypeUpd
  end.

Definition topic_of (st : State) (h : TopicHandler) : string :=
  match h with
  | onThingNew => topicAdd st
  | onThingRemove => topicRem st
  | onThingUpdate => topicUpd st
  end.

End Service.
End framework.

(** ** fmt.Errorf on a format without operands *)
Module Fmt.

(** After a percent sign, a flag, a digit, a point, a star or a bracket
    starts a longer directive, and a byte outside ASCII starts a rune of
    several bytes; every other byte is the verb. *)
Definition is_verb (c : ascii) : bool :=
  (nat_of_ascii c <? 128)%nat
  && negb (existsb (Ascii.eqb c)
             ["#"; "+"; "-"; " "; "0"; "1"; "2"; "3"; "4"; "5"; "6"; "7"; "8"; "9";
              "."; "*"; "["]%char).

(** The text of [fmt.Errorf(format)] when no operand is given, for the
    formats the test doubles meet: text without a percent sign is
    copied; "%%" prints one percent sign; a percent sign followed by
    another verb prints as that verb with its operand missing; a percent
    sign that ends the format prints as a missing verb.  The longer
    directives (flags, width, precision, argument index, a verb outside
    ASCII) are rewritten by fmt too; that part of fmt is not spelled out
    here, and [Errorf] leaves their percent sign in place. *)
Fixpoint Errorf (format : string) : string :=
  match format with
  | EmptyString => EmptyString
  | String c rest =>
      if decide (c = "%"%char) then
        match rest with
        | EmptyString => "%!(NOVERB)"
        | String v rest' =>
            if decide (v = "%"%char) then String "%" (Errorf rest')
            else if is_verb v then "%!" +:+ String v ("(MISSING)" +:+ Errorf rest')
            else String c (Errorf rest)
        end
      else String c (Errorf rest)
  end.

End Fmt.

(** ** Test doubles: a runtime and a platform to run the code on *)
Module Stub.
Import Go.

Definition dev1 : framework.ServiceDeviceUpdate :=
  framework.mkServiceDeviceUpdate "592c8a627d6ec25f901d9687"
    (mk_slice [rest.mkKeyValuePair "DevEUI" "test1"]).

(** QoS 1; the one payload that decodes is the text "thing:dev1". *)
#[export] Instance runtime : framework.Runtime := {|
  framework.mqttQos := 1;
  framework.json_Unmarshal := λ payload,
    if decide (payload = "thing:dev1")
    then inl (framework.mkServiceUpdatesEncapsulation dev1)
    else inr "invalid character"
|}.

Definition not_found : rest.Response := rest.mkResponse 404 "404 Not Found" "".
Definition no_devices : rest.Response := rest.mkResponse 200 "200 OK" "[]".
Definition null_devices : rest.Response := rest.mkResponse 200 "200 OK" "null".
Definition created : rest.Response := rest.mkResponse 200 "200 OK" "created".

(** A reply whose status text ends in a percent sign. *)
Definition overloaded : rest.Response := rest.mkResponse 503 "503 load at 100%" "".

Definition created_node : rest.hackServiceNode :=
  rest.mkHackServiceNode "owner42" "lora" "svc1" (rest.mkPubSub "openchirp/services/svc1")
    "LoRaWAN gateway" (Some {["MQTTUser" := "svc1"]}) nil_slice.

(** OK is 200; every request is well formed; fmt.Errorf is [Fmt.Errorf];
    "[]" scans as the empty array and "null" as null; the reply
    "created" decodes to [created_node]. *)
#[export] Instance platform : rest.Platform := {|
  rest.rootAPISubPath := "/api";
  rest.servicesSubPath := "/service";
  rest.serviceDevicesSubPath := "/things";
  rest.httpStatusCodeOK := 200;
  rest.http_NewRequest_err := λ _ _ _, None;
  rest.fmt_Errorf := Fmt.Errorf;
  rest.json_scan := λ body,
    if decide (body = "[]") then inl (rest.JArray [])
    else if decide (body = "null") then inl rest.JNull
    else inr "invalid character";
  rest.json_Marshal := λ req, inl (rest.req_Name req);
  rest.json_ServiceNode := λ body v, (v, Some "unexpected end of JSON input");
  rest.json_hackServiceNode := λ body v,
    if decide (body = "created") then (created_node, None)
    else (v, Some "unexpected end of JSON input");
  rest.json_ServiceDeviceListItem := λ j v, (v, None)
|}.

(** A host whose client answers every request with [resp]. *)
Definition host (resp : rest.Response) : rest.Host :=
  rest.mkHost "http://localhost:7000" "svc1" "secret" (λ _, inl resp).

Definition node : rest.ServiceNode :=
  rest.mkServiceNode
    (rest.mkNodeDescriptor "lora" "svc1" (rest.mkPubSub "openchirp/services/svc1")
       (rest.mkOwner "owner42"))
    "LoRaWAN gateway" (Some {["MQTTUser" := "svc1"]}) nil_slice.

(** A started service whose broker will answer the coming Subscribe and
    Unsubscribe calls as listed. *)
Definition started (subs unsubs : list (option string)) : framework.State :=
  framework.mkState
    (framework.mkService "svc1" (host not_found)
       (framework.mkClient subs unsubs [] ∅) node None)
    [] [].

(** The multiplexer started against a broker that accepts everything,
    and the same after one update came in on <root>/thing/new. *)
Definition active : framework.State :=
  framework.state_of (framework.StartDeviceUpdates (started [] [])).

Definition buffered : framework.State :=
  framework.state_of
    (framework.deliver "openchirp/services/svc1/thing/new" "thing:dev1" active).

(** A device of the list with two config pairs, and one whose list
    names AppKey twice. *)
Definition device : rest.ServiceDeviceListItem :=
  rest.mkServiceDeviceListItem "592c8a627d6ec25f901d9687"
    (mk_slice [rest.mkKeyValuePair "DevEUI" "test1"; rest.mkKeyValuePair "AppEUI" "test2"]).

Definition twice : rest.ServiceDeviceListItem :=
  rest.mkServiceDeviceListItem "592c8a627d6ec25f901d9687"
    (mk_slice [rest.mkKeyValuePair "AppKey" "old"; rest.mkKeyValuePair "DevEUI" "test1";
               rest.mkKeyValuePair "AppKey" "new"]).

(** The entropy source on a day it draws 56789. *)
Definition rand_Int (max : Z) : framework.RandInt := framework.RandOk 56789.

End Stub.

(** ** More of package rest: vocabulary for its traces and config maps *)
Module wire.
Import Go rest.

(** The requests an operation handed to the HTTP client, in order. *)
Definition sent (evs : list Event) : list Request :=
  omap (λ e, match e with EvDo req => Some req | _ => None end) evs.

(** How often an operation closed a response body. *)
Definition body_closes (evs : list Event) : nat :=
  length (omap (λ e, match e with EvBodyClose => Some () | _ => None end) evs).

(** The responses the client of [host] gives to [reqs]. *)
Definition responses (host : Host) (reqs : list Request) : list Response :=
  omap (λ req, match client host req with inl resp => Some resp | inr _ => None end) reqs.

(** One exchange at most: a single request, and a response body closed
    for each response received. *)
Definition one_exchange (host : Host) (evs : list Event) : Prop :=
  (length (sent evs) ≤ 1)%nat
  ∧ body_closes evs = length (responses host (sent evs)).

(** The value the last pair of [l] with key [key] carries, if any. *)
Fixpoint last_value (l : list KeyValuePair) (key : string) : option string :=
  match l with
  | [] => None
  | p :: l' =>
      match last_value l' key with
      | Some v => Some v
      | None => if decide (Key p = key) then Some (Value p) else None
      end
  end.

End wire.

(** ** More of package framework: starting a service *)
Module service.
Import Go framework.

(** The options StartService sets on [MQTT.NewClientOptions()]. *)
Record ClientOptions : Type := mkClientOptions {
  Servers : list string;
  ClientID : string;
  Username : string;
  Password : string;
}.

Definition NewClientOptions : ClientOptions := mkClientOptions [] "" "" "".

Definition AddBroker (o : ClientOptions) (server : string) : ClientOptions :=
  mkClientOptions (Servers o ++ [server]) (ClientID o) (Username o) (Password o).
Definition SetClientID (o : ClientOptions) (clientID : string) : ClientOptions :=
  mkClientOptions (Servers o) clientID (Username o) (Password o).
Definition SetUsername (o : ClientOptions) (u : string) : ClientOptions :=
  mkClientOptions (Servers o) (ClientID o) u (Password o).
Definition SetPassword (o : ClientOptions) (p : string) : ClientOptions :=
  mkClientOptions (Servers o) (ClientID o) (Username o) p.

(** The error StartService returns, by the call that made it. *)
Inductive error : Type :=
| InfoError (e : rest.error)      (* s.host.RequestServiceInfo *)
| ConnectError (msg : string).    (* the token of s.mqtt.Connect *)

(** What StartService did, in order. *)
Inductive Event : Type :=
| EvInfo (ev : rest.Event)
| EvRand (max : Z)
| EvConnect (opts : ClientOptions).

(** [s.mqtt] before [MQTT.NewClient] is assigned to it. *)
Definition no_Client : Client := mkClient [] [] [] ∅.

(** [m[key]] read for its value alone. *)
Definition index (m : option (gmap string string)) (key : string) : string :=
  (map_index m key).1.

Section StartService.
Context `{rest.Platform}.

(** The entropy source, and the broker library: [NewClient opts] is the
    client [MQTT.NewClient] makes and the error its Connect token will
    carry. *)
Variable rand_Int : Z → RandInt.
Variable NewClient : ClientOptions → Client * option string.

Definition StartService (host : rest.Host) (serviceID : string)
  : Exit (option Service * option error) * list Event :=
  let s := mkService serviceID host no_Client rest.zero_ServiceNode None in
  let '((node, err), evs) := rest.RequestServiceInfo (framework.host s) (id s) in
  let s := mkService (id s) (framework.host s) (mqtt s) node (updates s) in
  let out := EvInfo <$> evs in
  match err with
  | Some e => (Value (None, Some (InfoError e)), out)
  | None =>
      let opts := AddBroker NewClientOptions (index (rest.Properties (framework.node s)) "MQTTBroker") in
      let out := out ++ [EvRand 100000] in
      match genClientID rand_Int s with
      | Fatal msg => (Fatal msg, out)
      | Value clientID =>
          let opts := SetClientID opts clientID in
          let opts := SetUsername opts (index (rest.Properties (framework.node s)) "MQTTUser") in
          let opts := SetPassword opts (index (rest.Properties (framework.node s)) "MQTTPass") in
          let '(c, cerr) := NewClient opts in
          let s := with_mqtt s c in
          let out := out ++ [EvConnect opts] in
          match cerr with
          | Some e => (Value (None, Some (ConnectError e)), out)
          | None => (Value (Some s, None), out)
          end
      end
  end.

Definition FetchDeviceConfigs (s : Service)
  : (slice rest.ServiceDeviceListItem * option rest.error) * list rest.Event :=
  rest.RequestServiceDeviceList (framework.host s) (id s).

End StartService.

Section Deliveries.
Context `{Runtime}.

(** The broker client delivers the messages [(topic, payload)] one
    after the other. *)
Fixpoint deliver_all (ms : list (string * string)) : M unit :=
  match ms with
  | [] => mret ()
  | (topic, payload) :: ms' => deliver topic payload;; deliver_all ms'
  end.

End Deliveries.
End service.

(** ** More test doubles: a platform that serves the service node *)
Module Fake.
Import Go.

Definition served : rest.Response := rest.mkResponse 200 "200 OK" "node".

(** As [Stub.platform], but the reply "node" decodes to [Stub.node]. *)
#[export] Instance platform : rest.Platform := {|
  rest.rootAPISubPath := "/api";
  rest.servicesSubPath := "/service";
  rest.serviceDevicesSubPath := "/things";
  rest.httpStatusCodeOK := 200;
  rest.http_NewRequest_err := λ _ _ _, None;
  rest.fmt_Errorf := Fmt.Errorf;
  rest.json_scan := λ body,
    if decide (body = "[]") then inl (rest.JArray []) else inr "invalid character";
  rest.json_Marshal := λ req, inl (rest.req_Name req);
  rest.json_ServiceNode := λ body v,
    if decide (body = "node") then (Stub.node, None)
    else (v, Some "unexpected end of JSON input");
  rest.json_hackServiceNode := λ body v, (v, Some "unexpected end of JSON input");
  rest.json_ServiceDeviceListItem := λ j v, (v, None)
|}.

(** A broker library whose clients connect, and one whose clients are
    refused. *)
Definition accepting (opts : service.ClientOptions) : framework.Client * option string :=
  (service.no_Client, None).
Definition refusing (opts : service.ClientOptions) : framework.Client * option string :=
  (service.no_Client, Some "network Error : dial tcp: connection refused").

(** The entropy source on a day it draws 7. *)
Definition rand_Int (max : Z) : framework.RandInt := framework.RandOk 7.

Definition envelope : framework.ServiceUpdatesEncapsulation :=
  framework.mkServiceUpdatesEncapsulation Stub.dev1.

(** Two deliveries, and as many as the queue holds. *)
Definition two_updates
  : list (framework.TopicHandler * string * framework.ServiceUpdatesEncapsulation) :=
  [(framework.onThingNew, "thing:dev1", envelope);
   (framework.onThingUpdate, "thing:dev1", envelope)].

Definition ten_updates
  : list (framework.TopicHandler * string * framework.ServiceUpdatesEncapsulation) :=
  replicate 10 (framework.onThingRemove, "thing:dev1", envelope).

End Fake.

(** ** Executions of the multiplexer, and the life of its queue *)
Module execution.
Import Go framework.

(** What happens to a started multiplexer: the broker client delivers a
    message, the holder of a channel handle receives from it, the
    service calls StopDeviceUpdates. *)
Inductive Op : Type :=
| OpDeliver (topic payload : string)
| OpReceive (ch : option nat)
| OpStop.






Section Run.
Context `{Runtime}.

(** One operation, from the state the one before left: a callback that
    waits in its send, or a call that panicked, does not keep the next
    operation from being tried. *)
Definition step (o : Op) (st : State) : State :=
  match o with
  | OpDeliver topic payload => state_of (deliver topic payload st)
  | OpReceive ch => state_of (receive ch st)
  | OpStop => state_of (StopDeviceUpdates st)
  end.

Definition run (ops : list Op) (st : State) : State :=
  foldl (λ st o, step o st) st ops.



End Run.
End execution.

(** ** Properties of the REST operations *)
Module RestProperties.
Import Go rest.

Ltac inv_do H :=
  repeat (apply elem_of_cons in H as [H|H]; [try discriminate H|]);
  try (by apply elem_of_nil in H);
  try (injection H as ->).

Ltac split_client rq :=
  destruct (client _ rq) as [?|?];
    [destruct (decide _);
       [|try destruct (json_ServiceNode _ _);
         try destruct (json_ServiceDeviceListItems _ _);
         try destruct (json_hackServiceNode _ _)]|].

(** The request an operation sent is the one it built. *)
Ltac same_request Hin req :=
  match type of Hin with
  | context [client _ ?rq] =>
      assert (req = rq) as ->
        by (split_client rq; cbn in Hin; inv_do Hin; reflexivity)
  end.

Ltac split_answer :=
  match goal with
  | |- context [client _ ?rq] => split_client rq
  end.

Section WithPlatform.
Context `{Platform}.

(** After its request went out, an operation's result and trace follow
    from the client's answer alone. *)
Lemma RequestServiceInfo_answer (host : Host) (serviceid : string) (req : Request) :
  EvDo req ∈ (RequestServiceInfo host serviceid).2 →
  RequestServiceInfo host serviceid
  = match client host req with
    | inr msg => ((zero_ServiceNode, Some (TransportError msg)), [EvDo req])
    | inl resp =>
        if decide (StatusCode resp ≠ httpStatusCodeOK)
        then ((zero_ServiceNode, Some (StatusError (fmt_Errorf (Status resp)))),
              [EvDo req; EvBodyClose])
        else (((json_ServiceNode (Body resp) zero_ServiceNode).1,
               DecodeError <$> (json_ServiceNode (Body resp) zero_ServiceNode).2),
              [EvDo req; EvDecode (Body resp); EvBodyClose])
    end.
Proof.
  unfold RequestServiceInfo. intros Hin.
  destruct (http_NewRequest _ _ _) as [r|e]; cbn in Hin |- *; [|inv_do Hin].
  same_request Hin req. by split_answer.
Qed.

Lemma RequestServiceDeviceList_answer (host : Host) (serviceid : string) (req : Request) :
  EvDo req ∈ (RequestServiceDeviceList host serviceid).2 →
  ∃ line,
    RequestServiceDeviceList host serviceid
    = match client host req with
      | inr msg => ((mk_slice [], Some (TransportError msg)), [EvPrintln line; EvDo req])
      | inl resp =>
          if decide (StatusCode resp ≠ httpStatusCodeOK)
          then ((mk_slice [], Some (StatusError (fmt_Errorf (Status resp)))),
                [EvPrintln line; EvDo req; EvBodyClose])
          else (((json_ServiceDeviceListItems (Body resp) make_slice).1,
                 DecodeError <$> (json_ServiceDeviceListItems (Body resp) make_slice).2),
                [EvPrintln line; EvDo req; EvDecode (Body resp); EvBodyClose])
      end.
Proof.
  unfold RequestServiceDeviceList. intros Hin.
  destruct (http_NewRequest _ _ _) as [r|e]; cbn in Hin |- *; [|inv_do Hin].
  same_request Hin req. eexists. by split_answer.
Qed.

Lemma ServiceCreate_answer (host : Host) (name description : string)
    (properties : option (gmap string string))
    (configParams : slice ServiceConfigParameter) (req : Request) :
  EvDo req ∈ (ServiceCreate host name description properties configParams).2 →
  ∃ line,
    ServiceCreate host name description properties configParams
    = match client host req with
      | inr msg => ((zero_ServiceNode, Some (TransportError msg)), [EvPrintln line; EvDo req])
      | inl resp =>
          if decide (StatusCode resp ≠ httpStatusCodeOK)
          then ((zero_ServiceNode, Some (StatusError (fmt_Errorf (Status resp)))),
                [EvPrintln line; EvDo req; EvBodyClose])
          else
            let hack := (json_hackServiceNode (Body resp) zero_hackServiceNode).1 in
            ((mkServiceNode
                (mkNodeDescriptor (hack_Name hack) (hack_ID hack) (hack_Pubsub hack)
                   (mkOwner (hack_OwnerID hack)))
                (hack_Description hack) (hack_Properties hack)
                (hack_ConfigParameters hack),
              DecodeError <$> (json_hackServiceNode (Body resp) zero_hackServiceNode).2),
             [EvPrintln line; EvDo req; EvDecode (Body resp); EvBodyClose])
      end.
Proof.
  unfold ServiceCreate. intros Hin.
  destruct (json_Marshal _) as [body|e]; cbn in Hin |- *; [|inv_do Hin].
  destruct (http_NewRequest _ _ _) as [r|e]; cbn in Hin |- *; [|inv_do Hin].
  same_request Hin req. eexists. by split_answer.
Qed.

Lemma ServiceDelete_answer (host : Host) (serviceid : string) (req : Request) :
  EvDo req ∈ (ServiceDelete host serviceid).2 →
  ServiceDelete host serviceid
  = match client host req with
    | inr msg => (Some (TransportError msg), [EvDo req])
    | inl resp =>
        if decide (StatusCode resp ≠ httpStatusCodeOK)
        then (Some (StatusError (fmt_Errorf (Status resp))), [EvDo req; EvBodyClose])
        else (None, [EvDo req; EvBodyClose])
    end.
Proof.
  unfold ServiceDelete. intros Hin.
  destruct (http_NewRequest _ _ _) as [r|e]; cbn in Hin |- *; [|inv_do Hin].
  same_request Hin req. by split_answer.
Qed.

Lemma not_decoded_closed (pre : list Event) (req : Request) :
  (∀ body, EvDecode body ∉ pre) → ¬ decoded (pre ++ [EvDo req; EvBodyClose]).
Proof.
  intros Hpre [body Hin]. apply elem_of_app in Hin as [Hin|Hin].
  - by apply (Hpre body).
  - inv_do Hin.
Qed.

(** X22. Whenever the response to the request of a REST operation (fetch
    the service descriptor, fetch the device list, create a service,
    delete a service) carries a status other than OK, the operation
    returns the status error made from the status text -- the text
    itself when it holds no format verb -- together with the zero value
    of its result, and the JSON decoder is not run. *)
Theorem status_not_OK (host : Host) (req : Request) (resp : Response) :
  (∀ format, verbatim format = true → fmt_Errorf format = format) →
  client host req = inl resp →
  StatusCode resp ≠ httpStatusCodeOK →
  let err := Some (StatusError (fmt_Errorf (Status resp))) in
  (∀ serviceid,
     let r := RequestServiceInfo host serviceid in
     EvDo req ∈ r.2 → r.1 = (zero_ServiceNode, err) ∧ ¬ decoded r.2)
  ∧ (∀ serviceid,
       let r := RequestServiceDeviceList host serviceid in
       EvDo req ∈ r.2 → r.1 = (mk_slice [], err) ∧ ¬ decoded r.2)
  ∧ (∀ name description properties configParams,
       let r := ServiceCreate host name description properties configParams in
       EvDo req ∈ r.2 → r.1 = (zero_ServiceNode, err) ∧ ¬ decoded r.2)
  ∧ (∀ serviceid,
       let r := ServiceDelete host serviceid in
       EvDo req ∈ r.2 → r.1 = err ∧ ¬ decoded r.2)
  ∧ (verbatim (Status resp) = true → err = Some (StatusError (Status resp))).
Proof.
  intros Hfmt Hdo Hst err.
  repeat apply conj.
  - intros serviceid r Hin. subst r.
    rewrite (RequestServiceInfo_answer _ _ _ Hin), Hdo, decide_True by done.
    split; [done|]. apply (not_decoded_closed []). intros b Hb. inv_do Hb.
  - intros serviceid r Hin. subst r.
    destruct (RequestServiceDeviceList_answer _ _ _ Hin) as [line ->].
    rewrite Hdo, decide_True by done.
    split; [done|]. apply (not_decoded_closed [_]). intros b Hb. inv_do Hb.
  - intros name description properties configParams r Hin. subst r.
    destruct (ServiceCreate_answer _ _ _ _ _ _ Hin) as [line ->].
    rewrite Hdo, decide_True by done.
    split; [done|]. apply (not_decoded_closed [_]). intros b Hb. inv_do Hb.
  - intros serviceid r Hin. subst r.
    rewrite (ServiceDelete_answer _ _ _ Hin), Hdo, decide_True by done.
    split; [done|]. apply (not_decoded_closed []). intros b Hb. inv_do Hb.
  - intros Hv. subst err. by rewrite Hfmt.
Qed.

(** C3 (the code at the failing input). The operations hand the status
    text to fmt.Errorf as its format, not as an operand.  Whenever the
    response carries a status other than OK whose text fmt.Errorf does
    not print as it stands (a text with a percent sign), each of the
    four operations returns, with the zero value of its result and
    without decoding, an error whose text is the formatted one, which is
    not the status text. *)
Theorem status_text_as_format (host : Host) (req : Request) (resp : Response) :
  client host req = inl resp →
  StatusCode resp ≠ httpStatusCodeOK →
  fmt_Errorf (Status resp) ≠ Status resp →
  let err := Some (StatusError (fmt_Errorf (Status resp))) in
  err ≠ Some (StatusError (Status resp))
  ∧ (∀ serviceid,
       let r := RequestServiceInfo host serviceid in
       EvDo req ∈ r.2 → r.1 = (zero_ServiceNode, err) ∧ ¬ decoded r.2)
  ∧ (∀ serviceid,
       let r := RequestServiceDeviceList host serviceid in
       EvDo req ∈ r.2 → r.1 = (mk_slice [], err) ∧ ¬ decoded r.2)
  ∧ (∀ name description properties configParams,
       let r := ServiceCreate host name description properties configParams in
       EvDo req ∈ r.2 → r.1 = (zero_ServiceNode, err) ∧ ¬ decoded r.2)
  ∧ (∀ serviceid,
       let r := ServiceDelete host serviceid in
       EvDo req ∈ r.2 → r.1 = err ∧ ¬ decoded r.2).
Proof.
  intros Hdo Hst Hfmt err.
  split; [intros [= E]; by apply Hfmt|].
  split; [|split; [|split]].
  - intros serviceid r Hin. subst r.
    rewrite (RequestServiceInfo_answer _ _ _ Hin), Hdo, decide_True by done.
    split; [done|]. apply (not_decoded_closed []). intros b Hb. inv_do Hb.
  - intros serviceid r Hin. subst r.
    destruct (RequestServiceDeviceList_answer _ _ _ Hin) as [line ->].
    rewrite Hdo, decide_True by done.
    split; [done|]. apply (not_decoded_closed [_]). intros b Hb. inv_do Hb.
  - intros name description properties configParams r Hin. subst r.
    destruct (ServiceCreate_answer _ _ _ _ _ _ Hin) as [line ->].
    rewrite Hdo, decide_True by done.
    split; [done|]. apply (not_decoded_closed [_]). intros b Hb. inv_do Hb.
  - intros serviceid r Hin. subst r.
    rewrite (ServiceDelete_answer _ _ _ Hin), Hdo, decide_True by done.
    split; [done|]. apply (not_decoded_closed []). intros b Hb. inv_do Hb.
Qed.

Ltac sent_request Hno :=
  match goal with
  | |- context [client _ ?rq] =>
      exfalso; apply (Hno rq); split_client rq; cbn; set_solver
  end.

Lemma RequestServiceInfo_failure_modes (host : Host) (serviceid : string) :
  let r := RequestServiceInfo host serviceid in
  failure_modes host r.2 r.1.2 (λ body, (json_ServiceNode body zero_ServiceNode).2).
Proof.
  split.
  - intros req Hin. rewrite (RequestServiceInfo_answer _ _ _ Hin).
    destruct (client host req) as [resp|msg]; [|done]. by destruct (decide _).
  - intros Hno. unfold RequestServiceInfo in *.
    destruct (http_NewRequest _ _ _) as [r|e]; cbn in Hno |- *; [|by eauto].
    sent_request Hno.
Qed.

Lemma RequestServiceDeviceList_failure_modes (host : Host) (serviceid : string) :
  let r := RequestServiceDeviceList host serviceid in
  failure_modes host r.2 r.1.2 (λ body, (json_ServiceDeviceListItems body make_slice).2).
Proof.
  split.
  - intros req Hin. destruct (RequestServiceDeviceList_answer _ _ _ Hin) as [line ->].
    destruct (client host req) as [resp|msg]; [|done]. by destruct (decide _).
  - intros Hno. unfold RequestServiceDeviceList in *.
    destruct (http_NewRequest _ _ _) as [r|e]; cbn in Hno |- *; [|by eauto].
    sent_request Hno.
Qed.

Lemma ServiceCreate_failure_modes (host : Host) (name description : string)
    (properties : option (gmap string string))
    (configParams : slice ServiceConfigParameter) :
  let r := ServiceCreate host name description properties configParams in
  failure_modes host r.2 r.1.2
    (λ body, (json_hackServiceNode body zero_hackServiceNode).2).
Proof.
  split.
  - intros req Hin. destruct (ServiceCreate_answer _ _ _ _ _ _ Hin) as [line ->].
    destruct (client host req) as [resp|msg]; [|done]. by destruct (decide _).
  - intros Hno. unfold ServiceCreate in *.
    destruct (json_Marshal _) as [body|e]; cbn in Hno |- *; [|by eauto].
    destruct (http_NewRequest _ _ _) as [r|e]; cbn in Hno |- *; [|by eauto].
    sent_request Hno.
Qed.

Lemma ServiceDelete_failure_modes (host : Host) (serviceid : string) :
  let r := ServiceDelete host serviceid in
  failure_modes host r.2 r.1 (λ _, None).
Proof.
  split.
  - intros req Hin. rewrite (ServiceDelete_answer _ _ _ Hin).
    destruct (client host req) as [resp|msg]; [|done]. by destruct (decide _).
  - intros Hno. unfold ServiceDelete in *.
    destruct (http_NewRequest _ _ _) as [r|e]; cbn in Hno |- *; [|by eauto].
    sent_request Hno.
Qed.

(** C4. When the platform answers the device-list request with OK and
    an empty JSON array, RequestServiceDeviceList returns the empty,
    non-nil slice and no error.  Its failures are those of the other
    REST operations -- all four obey [failure_modes]: transport, status,
    decode -- and on every failure other than a decode failure the
    result is still the empty, non-nil slice. *)
Theorem RequestServiceDeviceList_no_devices (host : Host) (serviceid : string) :
  let r := RequestServiceDeviceList host serviceid in
  (∀ req resp,
     EvDo req ∈ r.2 → client host req = inl resp →
     StatusCode resp = httpStatusCodeOK → json_scan (Body resp) = inl (JArray []) →
     r.1 = (mk_slice [], None) ∧ is_nil r.1.1 = false)
  ∧ failure_modes host r.2 r.1.2
      (λ body, (json_ServiceDeviceListItems body make_slice).2)
  ∧ (∀ sid, let i := RequestServiceInfo host sid in
       failure_modes host i.2 i.1.2 (λ body, (json_ServiceNode body zero_ServiceNode).2))
  ∧ (∀ name description properties configParams,
       let c := ServiceCreate host name description properties configParams in
       failure_modes host c.2 c.1.2
         (λ body, (json_hackServiceNode body zero_hackServiceNode).2))
  ∧ (∀ sid, let d := ServiceDelete host sid in failure_modes host d.2 d.1 (λ _, None))
  ∧ (∀ e, r.1.2 = Some e → (∀ msg, e ≠ DecodeError msg) → r.1.1 = mk_slice [])
  ∧ (∀ msg, r.1.2 ≠ Some (MarshalError msg)).
Proof.
  intros r. subst r. split; [|split; [|split; [|split; [|split; [|split]]]]].
  - intros req resp Hin Hdo Hok Hscan.
    destruct (RequestServiceDeviceList_answer _ _ _ Hin) as [line ->].
    rewrite Hdo, decide_False by (by intros ?).
    unfold json_ServiceDeviceListItems. by rewrite Hscan.
  - apply RequestServiceDeviceList_failure_modes.
  - intros sid. apply RequestServiceInfo_failure_modes.
  - intros. apply ServiceCreate_failure_modes.
  - intros sid. apply ServiceDelete_failure_modes.
  - intros e. unfold RequestServiceDeviceList.
    destruct (http_NewRequest _ _ _) as [r|e']; cbn; [|done].
    split_answer; cbn; try done.
    destruct o as [msg|]; cbn; [|done]. intros [= <-] Hne. by destruct (Hne msg).
  - intros msg. unfold RequestServiceDeviceList.
    destruct (http_NewRequest _ _ _) as [r|e']; cbn; [|done].
    split_answer; cbn; try done. by destruct o.
Qed.

(** A reply of OK whose body is the JSON null, not an array, is the one
    case that sets the slice to nil. *)
Lemma RequestServiceDeviceList_null_body (host : Host) (serviceid : string)
    (req : Request) (resp : Response) :
  EvDo req ∈ (RequestServiceDeviceList host serviceid).2 →
  client host req = inl resp →
  StatusCode resp = httpStatusCodeOK → json_scan (Body resp) = inl JNull →
  (RequestServiceDeviceList host serviceid).1 = (nil_slice, None).
Proof.
  intros Hin Hdo Hok Hscan.
  destruct (RequestServiceDeviceList_answer _ _ _ Hin) as [line ->].
  rewrite Hdo, decide_False by (by intros ?).
  unfold json_ServiceDeviceListItems. by rewrite Hscan.
Qed.

(** C9. On an OK response ServiceCreate decodes the body into a struct
    whose owner is a plain string and builds the service node from it:
    the node's owner identifier is the reply's "owner", and its name,
    id, pub/sub end point, description, properties and config parameters
    are the reply's; the error is the decoder's. *)
Theorem ServiceCreate_remaps_owner (host : Host) (name description : string)
    (properties : option (gmap string string))
    (configParams : slice ServiceConfigParameter) (req : Request) (resp : Response) :
  let r := ServiceCreate host name description properties configParams in
  EvDo req ∈ r.2 → client host req = inl resp → StatusCode resp = httpStatusCodeOK →
  let reply := json_hackServiceNode (Body resp) zero_hackServiceNode in
  let serviceNode := r.1.1 in
  Owner_Id (Owner_ (Descriptor serviceNode)) = hack_OwnerID reply.1
  ∧ Name (Descriptor serviceNode) = hack_Name reply.1
  ∧ ID (Descriptor serviceNode) = hack_ID reply.1
  ∧ Pubsub (Descriptor serviceNode) = hack_Pubsub reply.1
  ∧ Description serviceNode = hack_Description reply.1
  ∧ Properties serviceNode = hack_Properties reply.1
  ∧ ConfigParameters serviceNode = hack_ConfigParameters reply.1
  ∧ r.1.2 = DecodeError <$> reply.2
  ∧ EvDecode (Body resp) ∈ r.2.
Proof.
  intros r Hin Hdo Hok reply serviceNode. subst r reply serviceNode.
  destruct (ServiceCreate_answer _ _ _ _ _ _ Hin) as [line ->].
  rewrite Hdo, decide_False by (by intros ?). cbn.
  repeat split; set_solver.
Qed.

End WithPlatform.

#[local] Existing Instance Stub.platform.

(** The stub platform prints a format without verbs as it stands. *)
Lemma stub_Errorf_verbatim (format : string) :
  verbatim format = true → @fmt_Errorf Stub.platform format = format.
Proof.
  change (@fmt_Errorf Stub.platform) with Fmt.Errorf.
  induction format as [|c format IH]; [done|].
  cbn [verbatim Fmt.Errorf]. destruct (decide (c = "%"%char)); [done|].
  intros E. by rewrite IH.
Qed.

Lemma status_not_OK_witness :
  (ServiceDelete (Stub.host Stub.not_found) "svc1").1
  = Some (StatusError "404 Not Found")
  ∧ ¬ decoded (ServiceDelete (Stub.host Stub.not_found) "svc1").2.
Proof.
  apply (status_not_OK (Stub.host Stub.not_found)
           (SetBasicAuth
              (mkRequest "DELETE" "http://localhost:7000/api/service/svc1" None [] None)
              "svc1" "secret")
           Stub.not_found stub_Errorf_verbatim).
  - reflexivity.
  - vm_compute. discriminate.
  - vm_compute. apply list_elem_of_here.
Defined.

(** fmt.Errorf on a text that ends in its only percent sign: the sign
    is printed as a missing verb. *)
Lemma Errorf_trailing_percent (text : string) :
  verbatim text = true → Fmt.Errorf (text +:+ "%") = text +:+ "%!(NOVERB)".
Proof.
  induction text as [|c text IH]; [done|].
  cbn [verbatim]. destruct (decide (c = "%"%char)) as [|Hc]; [done|]. intros E.
  change (String c text +:+ "%") with (String c (text +:+ "%")).
  cbn [Fmt.Errorf]. rewrite decide_False by done.
  change (String c text +:+ "%!(NOVERB)") with (String c (text +:+ "%!(NOVERB)")).
  by rewrite IH.
Qed.

Lemma status_text_as_format_witness :
  (ServiceDelete (Stub.host Stub.overloaded) "svc1").1
  = Some (StatusError "503 load at 100%!(NOVERB)")
  ∧ ¬ decoded (ServiceDelete (Stub.host Stub.overloaded) "svc1").2.
Proof.
  refine (proj2 (proj2 (proj2 (proj2
            (status_text_as_format (Stub.host Stub.overloaded)
               (SetBasicAuth
                  (mkRequest "DELETE" "http://localhost:7000/api/service/svc1" None [] None)
                  "svc1" "secret")
               Stub.overloaded _ _ _)))) "svc1" _).
  - reflexivity.
  - vm_compute. discriminate.
  - vm_compute. discriminate.
  - vm_compute. apply list_elem_of_here.
Defined.

Lemma RequestServiceDeviceList_no_devices_witness :
  (RequestServiceDeviceList (Stub.host Stub.no_devices) "svc1").1 = (mk_slice [], None)
  ∧ is_nil (RequestServiceDeviceList (Stub.host Stub.no_devices) "svc1").1.1 = false.
Proof.
  apply (proj1 (RequestServiceDeviceList_no_devices (Stub.host Stub.no_devices) "svc1")
           (SetBasicAuth
              (mkRequest "GET" "http://localhost:7000/api/service/svc1/things" None [] None)
              "svc1" "secret")
           Stub.no_devices).
  - vm_compute. apply list_elem_of_further, list_elem_of_here.
  - reflexivity.
  - reflexivity.
  - reflexivity.
Defined.

Lemma RequestServiceDeviceList_null_body_witness :
  (RequestServiceDeviceList (Stub.host Stub.null_devices) "svc1").1 = (nil_slice, None).
Proof.
  apply (RequestServiceDeviceList_null_body (Stub.host Stub.null_devices) "svc1"
           (SetBasicAuth
              (mkRequest "GET" "http://localhost:7000/api/service/svc1/things" None [] None)
              "svc1" "secret")
           Stub.null_devices).
  - vm_compute. apply list_elem_of_further, list_elem_of_here.
  - reflexivity.
  - reflexivity.
  - reflexivity.
Defined.

Lemma ServiceCreate_remaps_owner_witness :
  Owner_Id (Owner_ (Descriptor
    (ServiceCreate (Stub.host Stub.created) "lora" "LoRaWAN gateway" None nil_slice).1.1))
  = "owner42".
Proof.
  refine (proj1 (ServiceCreate_remaps_owner (Stub.host Stub.created) "lora"
                   "LoRaWAN gateway" None nil_slice
                   (SetBasicAuth
                      (Header_Add
                         (mkRequest "POST" "http://localhost:7000/api/service"
                            (Some "lora") [] None)
                         "Content-Type" "application/json")
                      "svc1" "secret")
                   Stub.created _ _ _)).
  - vm_compute. apply list_elem_of_further, list_elem_of_here.
  - reflexivity.
  - reflexivity.
Defined.

End RestProperties.

(** ** Properties of the service context *)
Module ServiceProperties.
Import Go framework.

Lemma lookup_fresh {A} (cs : list A) (x : A) : (cs ++ [x]) !! length cs = Some x.
Proof. by apply list_lookup_middle. Qed.

Lemma insert_fresh {A} (cs : list A) (x y : A) : <[length cs := y]> (cs ++ [x]) = cs ++ [y].
Proof. rewrite insert_app_r_alt; [|lia]. by rewrite Nat.sub_diag. Qed.

Lemma append_inj_r (p a b : string) : p +:+ a = p +:+ b → a = b.
Proof. induction p as [|c p IH]; cbn; [done|]. intros [= E]. auto. Qed.

(** Runs the straight-line code of Start/StopDeviceUpdates on a state
    whose broker script is known. *)
Ltac run :=
  unfold StartDeviceUpdates, StopDeviceUpdates, mbind, M_bind, mret, M_ret, make,
    set_updates, get_updates, pubsub_topic, Subscribe, Unsubscribe, close;
  cbn -[insert delete lookup];
  repeat (rewrite ?lookup_fresh, ?insert_fresh; cbn -[insert delete lookup]).

Ltac topics := unfold with_acks, Active, topicUpd, topicAdd, topicRem, root_topic.

Section WithRuntime.
Context `{Runtime}.

(** When the broker accepts the three subscriptions the multiplexer is
    Active on a fresh, open queue of capacity 10, which is returned. *)
Lemma StartDeviceUpdates_all_accepted (st : State) (subs unsubs : list (option string)) :
  ∃ st',
    StartDeviceUpdates (with_acks st (None :: None :: None :: subs) unsubs)
    = Returned (Some (length (chans st)), None) st'
    ∧ Active (length (chans st)) st'
    ∧ chans st' = chans st ++ [make_chan deviceUpdatesBuffering]
    ∧ events st' = events st ++
        [EvMake (length (chans st)) deviceUpdatesBuffering;
         EvSubscribe (topicAdd st) qos_byte onThingNew None;
         EvSubscribe (topicRem st) qos_byte onThingRemove None;
         EvSubscribe (topicUpd st) qos_byte onThingUpdate None].
Proof.
  destruct st as [s cs evs]. topics. run.
  eexists; split; [reflexivity|]. cbn -[insert delete lookup].
  rewrite lookup_fresh.
  split; [|split; [done|by rewrite <- !app_assoc]].
  split; [done|]. split; [by eexists|].
  assert (N1 : ∀ p, p +:+ "/thing/update" ≠ p +:+ "/thing/new")
    by (intros p E%append_inj_r; discriminate E).
  assert (N2 : ∀ p, p +:+ "/thing/update" ≠ p +:+ "/thing/remove")
    by (intros p E%append_inj_r; discriminate E).
  assert (N3 : ∀ p, p +:+ "/thing/remove" ≠ p +:+ "/thing/new")
    by (intros p E%append_inj_r; discriminate E).
  repeat split.
  - rewrite lookup_insert_ne by apply N1. rewrite lookup_insert_ne by apply N3.
    apply lookup_insert_eq.
  - rewrite lookup_insert_ne by apply N2. apply lookup_insert_eq.
  - apply lookup_insert_eq.
Qed.

(** X2. When only the third subscription is rejected the rollback is the
    one intended, whatever the broker answers to the two Unsubscribe
    calls: both earlier topics are asked to be unsubscribed, in the
    order new, remove; the queue is closed once; [s.updates] is nil; the
    rejection is returned with a nil handle.  A callback stays
    registered exactly when its Unsubscribe was rejected; when both are
    acknowledged the subscriptions are those from before the call, less
    the two topics. *)
Lemma StartDeviceUpdates_third_rejected (st : State) (e : string)
    (subs unsubs : list (option string)) :
  ∃ st',
    StartDeviceUpdates (with_acks st (None :: None :: Some e :: subs) unsubs)
    = Returned (None, Some e) st'
    ∧ updates (svc st') = None
    ∧ chans st' = chans st ++ [Chan [] deviceUpdatesBuffering true]
    ∧ events st' = events st ++
        [EvMake (length (chans st)) deviceUpdatesBuffering;
         EvSubscribe (topicAdd st) qos_byte onThingNew None;
         EvSubscribe (topicRem st) qos_byte onThingRemove None;
         EvSubscribe (topicUpd st) qos_byte onThingUpdate (Some e);
         EvUnsubscribe (topicAdd st) (next_ack unsubs);
         EvUnsubscribe (topicRem st) (next_ack (tail unsubs));
         EvClose (Some (length (chans st)))]
    ∧ routes (mqtt (svc st')) !! topicUpd st = routes (mqtt (svc st)) !! topicUpd st
    ∧ routes (mqtt (svc st')) !! topicAdd st
      = match next_ack unsubs with
        | None => None
        | Some _ => Some onThingNew
        end
    ∧ routes (mqtt (svc st')) !! topicRem st
      = match next_ack (tail unsubs) with
        | None => None
        | Some _ => Some onThingRemove
        end
    ∧ (next_ack unsubs = None → next_ack (tail unsubs) = None →
       routes (mqtt (svc st'))
       = delete (topicRem st) (delete (topicAdd st) (routes (mqtt (svc st))))).
Proof.
  destruct st as [s cs evs]. topics. run.
  eexists; split; [reflexivity|]. cbn -[insert delete lookup].
  split; [done|]. split; [done|]. split; [by rewrite <- !app_assoc|].
  destruct (next_ack unsubs) as [u1|], (next_ack (tail unsubs)) as [u2|];
    (split; [|split; [|split]]).
  all: try (intros; discriminate).
  all: try (intros _ _; rewrite delete_insert_ne by (intros E%append_inj_r; discriminate E);
            by rewrite !delete_insert_eq).
  all: repeat first
         [ done
         | apply lookup_delete_eq
         | apply lookup_insert_eq
         | rewrite lookup_delete_ne by (intros E%append_inj_r; discriminate E)
         | rewrite lookup_insert_ne by (intros E%append_inj_r; discriminate E) ].
Qed.

Lemma call_malformed (h : TopicHandler) (topic payload e : string) (st : State) :
  json_Unmarshal payload = inr e →
  call h topic payload st
  = Returned () (mkState (svc st) (chans st)
       (events st ++ [EvLog ("Failed to unmarshal message on topic " +:+ topic +:+ LF)])).
Proof.
  intros E. destruct h; unfold call, thingNew, thingRemove, thingUpdate; by rewrite E.
Qed.

Lemma call_decoded (h : TopicHandler) (topic payload : string)
    (mqttMsg : ServiceUpdatesEncapsulation) (st : State) :
  json_Unmarshal payload = inl mqttMsg →
  call h topic payload st
  = send (updates (svc st)) (mkDeviceUpdate (kind h) (Thing mqttMsg)) st.
Proof.
  intros E. destruct h; unfold call, thingNew, thingRemove, thingUpdate; by rewrite E.
Qed.

(** C1 (the code at the failing input). The broker accepts the first
    subscription, rejects the second and accepts the third: the first
    topic is unsubscribed (one Unsubscribe call) and the queue is closed,
    but the function carries on, subscribes <root>/thing/update and
    returns a nil handle with a nil error.  The rejection is lost and
    the update topic stays subscribed, its callback sending on the nil
    channel. *)
Theorem StartDeviceUpdates_second_rejected (st : State) (e : string)
    (subs unsubs : list (option string)) :
  ∃ st',
    StartDeviceUpdates (with_acks st (None :: Some e :: None :: subs) unsubs)
    = Returned (None, None) st'
    ∧ routes (mqtt (svc st')) !! topicUpd st = Some onThingUpdate
    ∧ updates (svc st') = None
    ∧ chans st' = chans st ++ [Chan [] deviceUpdatesBuffering true]
    ∧ events st' = events st ++
        [EvMake (length (chans st)) deviceUpdatesBuffering;
         EvSubscribe (topicAdd st) qos_byte onThingNew None;
         EvSubscribe (topicRem st) qos_byte onThingRemove (Some e);
         EvUnsubscribe (topicAdd st) (next_ack unsubs);
         EvClose (Some (length (chans st)));
         EvSubscribe (topicUpd st) qos_byte onThingUpdate None]
    ∧ ∀ payload mqttMsg,
        json_Unmarshal payload = inl mqttMsg →
        deliver (topicUpd st) payload st'
        = Blocked (EvSend None (mkDeviceUpdate DeviceUpdateTypeUpd (Thing mqttMsg))) st'.
Proof.
  destruct st as [s cs evs]. topics. run.
  eexists; split; [reflexivity|]. cbn -[insert delete lookup].
  split; [by rewrite lookup_insert_eq|].
  split; [done|]. split; [done|].
  split; [by rewrite <- !app_assoc|].
  intros payload mqttMsg E. unfold deliver. cbn -[insert delete lookup].
  rewrite lookup_insert_eq. by rewrite (call_decoded _ _ _ _ _ E).
Qed.

(** X24. The broker rejects the first two subscriptions: the queue is
    closed after the first rejection and
    [s.updates] set to nil; after the second, the first topic is asked to
    be unsubscribed and [close(s.updates)] runs again, on the nil
    channel, and the call panics.  The queue itself was closed once. *)
Theorem StartDeviceUpdates_first_two_rejected (st : State) (e1 e2 : string)
    (subs unsubs : list (option string)) :
  ∃ st',
    StartDeviceUpdates (with_acks st (Some e1 :: Some e2 :: subs) unsubs)
    = Panicked "close of nil channel" st'
    ∧ chans st' = chans st ++ [Chan [] deviceUpdatesBuffering true]
    ∧ events st' = events st ++
        [EvMake (length (chans st)) deviceUpdatesBuffering;
         EvSubscribe (topicAdd st) qos_byte onThingNew (Some e1);
         EvClose (Some (length (chans st)));
         EvSubscribe (topicRem st) qos_byte onThingRemove (Some e2);
         EvUnsubscribe (topicAdd st) (next_ack unsubs);
         EvClose None].
Proof.
  destruct st as [s cs evs]. topics. run.
  eexists; split; [reflexivity|]. cbn -[insert delete lookup].
  split; [done|]. by rewrite <- !app_assoc.
Qed.

(** Every outcome of StartDeviceUpdates, by what the broker answers to
    the three subscriptions: the queue and no error when all are
    accepted; the rejection when only the third is rejected; nil and no
    error when only the first or only the second is rejected; a panic on
    the second [close] as soon as two are rejected. *)
Lemma StartDeviceUpdates_outcome (st : State) (a1 a2 a3 : option string)
    (subs unsubs : list (option string)) :
  let r := StartDeviceUpdates (with_acks st (a1 :: a2 :: a3 :: subs) unsubs) in
  match a1, a2, a3 with
  | None, None, None => returned r = Some (Some (length (chans st)), None)
  | None, None, Some e => returned r = Some (None, Some e)
  | None, Some _, None | Some _, None, None => returned r = Some (None, None)
  | _, _, _ => ∃ st', r = Panicked "close of nil channel" st'
  end.
Proof.
  destruct st as [s cs evs]. topics.
  destruct a1, a2, a3; run; by eauto.
Qed.

(** StopDeviceUpdates after any rollback, when [s.updates] is nil: the
    three topics are unsubscribed and [close] panics. *)
Lemma StopDeviceUpdates_nil_queue (st : State) :
  ∃ st',
    StopDeviceUpdates (with_svc st (with_updates (svc st) None))
    = Panicked "close of nil channel" st'
    ∧ chans st' = chans st.
Proof. destruct st as [s cs evs]. run. by eexists. Qed.

Lemma Active_route (c : nat) (st : State) (h : TopicHandler) :
  Active c st → routes (mqtt (svc st)) !! topic_of st h = Some h.
Proof. intros (_ & _ & Ha & Hr & Hu). by destruct h. Qed.

(** X23. While the multiplexer is Active, a payload delivered on one of
    the three update topics that does not decode is logged and dropped:
    the callback returns, the queue and the service (its subscriptions
    included) are as before.  A payload that decodes makes exactly one
    DeviceUpdate, tagged Add for /thing/new, Rem for /thing/remove and
    Upd for /thing/update, which is appended to the queue -- or, when
    the queue is full, is what the delivery waits to send. *)
Theorem deliver_update (st : State) (c : nat) (q : chan DeviceUpdate)
    (h : TopicHandler) (payload : string) :
  Active c st → chans st !! c = Some q →
  match json_Unmarshal payload with
  | inr _ =>
      deliver (topic_of st h) payload st
      = Returned () (mkState (svc st) (chans st)
          (events st ++
             [EvLog ("Failed to unmarshal message on topic " +:+ topic_of st h +:+ LF)]))
  | inl mqttMsg =>
      let u := mkDeviceUpdate (kind h) (Thing mqttMsg) in
      if (length (buf q) <? cap q)%nat then
        deliver (topic_of st h) payload st
        = Returned () (mkState (svc st)
            (<[c := Chan (buf q ++ [u]) (cap q) false]> (chans st))
            (events st ++ [EvSend (Some c) u]))
      else
        deliver (topic_of st h) payload st = Blocked (EvSend (Some c) u) st
  end.
Proof.
  intros HA Hq. pose proof (Active_route c st h HA) as Hr.
  destruct HA as (Hu & (q' & Hq' & Hopen) & _).
  rewrite Hq in Hq'. injection Hq' as <-.
  unfold deliver. rewrite Hr.
  destruct (json_Unmarshal payload) as [mqttMsg|e] eqn:E.
  - rewrite (call_decoded _ _ _ _ _ E), Hu. unfold send, chan_send.
    rewrite Hq, Hopen. by destruct (length (buf q) <? cap q)%nat.
  - by apply call_malformed with (e := e).
Qed.

(** C5 (the code at the failing input). The broker rejects the first
    subscription and accepts the other two: StartDeviceUpdates closes
    the queue, sets [s.updates] to nil and carries on, so that it
    returns a nil handle and a nil error with <root>/thing/remove and
    <root>/thing/update subscribed.  A payload that decodes, delivered
    on either topic, is not enqueued: the callback waits in its send on
    the nil channel, and the queue stays closed and empty. *)
Theorem deliver_after_first_rejected (st : State) (e : string)
    (subs unsubs : list (option string)) :
  ∃ st',
    StartDeviceUpdates (with_acks st (Some e :: None :: None :: subs) unsubs)
    = Returned (None, None) st'
    ∧ updates (svc st') = None
    ∧ chans st' = chans st ++ [Chan [] deviceUpdatesBuffering true]
    ∧ routes (mqtt (svc st')) !! topicRem st = Some onThingRemove
    ∧ routes (mqtt (svc st')) !! topicUpd st = Some onThingUpdate
    ∧ ∀ payload mqttMsg,
        json_Unmarshal payload = inl mqttMsg →
        deliver (topicRem st) payload st'
        = Blocked (EvSend None (mkDeviceUpdate DeviceUpdateTypeRem (Thing mqttMsg))) st'
        ∧ deliver (topicUpd st) payload st'
          = Blocked (EvSend None (mkDeviceUpdate DeviceUpdateTypeUpd (Thing mqttMsg))) st'.
Proof.
  destruct st as [s cs evs]. topics. run.
  eexists; split; [reflexivity|]. cbn -[insert delete lookup].
  assert (Hrem : ∀ r : gmap string TopicHandler,
            <[rest.Topic (rest.Pubsub (rest.Descriptor (node s))) +:+ "/thing/update"
              := onThingUpdate]>
              (<[rest.Topic (rest.Pubsub (rest.Descriptor (node s))) +:+ "/thing/remove"
                 := onThingRemove]> r)
            !! (rest.Topic (rest.Pubsub (rest.Descriptor (node s))) +:+ "/thing/remove")
            = Some onThingRemove).
  { intros r. rewrite lookup_insert_ne by (intros E%append_inj_r; discriminate E).
    apply lookup_insert_eq. }
  split; [done|]. split; [done|]. split; [apply Hrem|].
  split; [apply lookup_insert_eq|].
  intros payload mqttMsg E. unfold deliver. cbn -[insert delete lookup].
  rewrite Hrem, lookup_insert_eq. by rewrite !(call_decoded _ _ _ _ _ E).
Qed.

(** C7. Every Publish hands the broker client the retained flag false,
    whatever the topic and the payload. *)
Theorem Publish_not_retained (st : State) (topic payload : string) :
  ∃ st',
    Publish topic payload st = Returned (next_ack (pub_acks (mqtt (svc st)))) st'
    ∧ events st' = events st ++
        [EvPublish topic qos_byte false payload (next_ack (pub_acks (mqtt (svc st))))].
Proof. unfold Publish. by eexists. Qed.

(** A closed channel hands out what it holds, in order. *)
Lemma receive_n_closed (c : nat) (k : nat) (b : list DeviceUpdate) :
  ∀ st, chans st !! c = Some (Chan b k true) →
  ∃ st', receive_n (Some c) (length b) st = Returned b st'
       ∧ chans st' !! c = Some (Chan [] k true).
Proof.
  induction b as [|u b IH]; intros st Hc.
  - by exists st.
  - cbn [length receive_n]. unfold mbind, M_bind, receive at 1. rewrite Hc. cbn.
    set (st1 := mkState _ _ _).
    destruct (IH st1) as (st' & E & Hc').
    { subst st1. cbn. apply list_lookup_insert_eq. by eapply lookup_lt_Some. }
    exists st'. by rewrite E.
Qed.

Lemma receive_drained (c : nat) (k : nat) (st : State) :
  chans st !! c = Some (Chan [] k true) →
  receive (Some c) st
  = Returned None (mkState (svc st) (chans st) (events st ++ [EvRecv (Some c)])).
Proof. intros Hc. unfold receive. by rewrite Hc. Qed.

(** C8, as amended. StopDeviceUpdates, called while the queue [s.updates]
    is open, makes exactly three Unsubscribe calls -- new, remove,
    update, whatever each of them returns -- and then closes the queue.
    The updates still buffered stay receivable, in order; once they are
    received (at once, when none is buffered) a receive reports closed. *)
Theorem StopDeviceUpdates_active (st : State) (c : nat) (q : chan DeviceUpdate) :
  updates (svc st) = Some c → chans st !! c = Some q → closed q = false →
  let acks := unsub_acks (mqtt (svc st)) in
  ∃ st',
    StopDeviceUpdates st = Returned () st'
    ∧ events st' = events st ++
        [EvUnsubscribe (topicAdd st) (next_ack acks);
         EvUnsubscribe (topicRem st) (next_ack (tail acks));
         EvUnsubscribe (topicUpd st) (next_ack (tail (tail acks)));
         EvClose (Some c)]
    ∧ chans st' = <[c := Chan (buf q) (cap q) true]> (chans st)
    ∧ ∃ st'',
        receive_n (Some c) (length (buf q)) st' = Returned (buf q) st''
        ∧ receive (Some c) st''
          = Returned None
              (mkState (svc st'') (chans st'') (events st'' ++ [EvRecv (Some c)])).
Proof.
  intros Hu Hq Hopen acks. subst acks.
  destruct st as [s cs evs]. cbn in Hu, Hq. topics.
  run. rewrite Hu. cbn -[insert delete lookup]. rewrite Hq. unfold chan_close. rewrite Hopen.
  eexists; split; [reflexivity|]. cbn -[insert delete lookup].
  split; [by rewrite <- !app_assoc|]. split; [done|].
  match goal with |- ∃ _, receive_n _ _ ?s = _ ∧ _ => set (st' := s) end.
  destruct (receive_n_closed c (cap q) (buf q) st') as (st'' & E & Hc).
  { subst st'. cbn. apply list_lookup_insert_eq. by eapply lookup_lt_Some. }
  exists st''. split; [done|]. by apply receive_drained with (k := cap q).
Qed.

(** [big.Int.String] prints the decimal numeral: reading it back gives
    the number. *)
Lemma big_String_decimal (r : Z) :
  Z.of_int <$> NilZero.int_of_string (big_String r) = Some r.
Proof.
  unfold big_String. rewrite NilZero.isi.
  - cbn. f_equal. apply DecimalZ.of_to.
  - destruct r; cbn; [done| |done]. intros [= E]. by apply Unsigned.to_uint_nonnil in E.
  - destruct r; cbn; [done|done|]. intros [= E]. by apply Unsigned.to_uint_nonnil in E.
Qed.

(** C6. With an entropy source that keeps the contract of rand.Int for
    the bound 100000, a client ID is the service node's ID, a hyphen and
    the decimal numeral of the number drawn, which lies in [0, 100000);
    no ID is made only when the source fails, which ends the process. *)
Theorem genClientID_structure (rand_Int : Z → RandInt) (s : Service) :
  (∀ r, rand_Int 100000 = RandOk r → 0 ≤ r < 100000) →
  match genClientID rand_Int s with
  | Value clientID =>
      ∃ r, rand_Int 100000 = RandOk r
         ∧ 0 ≤ r < 100000
         ∧ clientID = rest.ID (rest.Descriptor (node s)) +:+ "-" +:+ big_String r
         ∧ Z.of_int <$> NilZero.int_of_string (big_String r) = Some r
  | Fatal _ => ∃ msg, rand_Int 100000 = RandErr msg
  end.
Proof.
  intros Hrange. unfold genClientID.
  destruct (rand_Int 100000) as [r|msg] eqn:E; [|by eexists].
  exists r. split; [done|]. split; [by apply Hrange|]. split; [done|].
  apply big_String_decimal.
Qed.

(** C10. GetProperty is the value mapped to the key in the service's
    properties when there is one and the empty string otherwise (also on
    a nil map); it has no error result. *)
Theorem GetProperty_lookup (s : Service) (key : string) :
  GetProperty s key = default "" (rest.Properties (node s) ≫= lookup key).
Proof.
  unfold GetProperty, map_index.
  destruct (rest.Properties (node s)) as [m|]; cbn; [|done].
  by destruct (m !! key).
Qed.

End WithRuntime.

#[local] Existing Instance Stub.runtime.

(** C8, the claim as stated fails: the multiplexer is started, one update
    arrives on <root>/thing/new and is buffered, StopDeviceUpdates runs;
    the receive that follows yields that update, not "closed". *)
Lemma stop_keeps_buffered_update :
  returned
    ((StartDeviceUpdates;;
      deliver "openchirp/services/svc1/thing/new" "thing:dev1";;
      StopDeviceUpdates;;
      receive (Some 0%nat)) (Stub.started [] []))
  = Some (Some (mkDeviceUpdate DeviceUpdateTypeAdd Stub.dev1)).
Proof. vm_compute. reflexivity. Qed.

Lemma Stub_active : Active 0 Stub.active.
Proof.
  split; [reflexivity|]. split; [by eexists|].
  repeat split; vm_compute; reflexivity.
Qed.

Lemma deliver_update_witness :
  deliver (topic_of Stub.active onThingUpdate) "{ not json" Stub.active
  = Returned ()
      (mkState (svc Stub.active) (chans Stub.active)
         (events Stub.active ++
            [EvLog ("Failed to unmarshal message on topic "
                    +:+ topic_of Stub.active onThingUpdate +:+ LF)])).
Proof.
  exact (deliver_update Stub.active 0 (make_chan deviceUpdatesBuffering)
           onThingUpdate "{ not json" Stub_active eq_refl).
Defined.

Lemma StopDeviceUpdates_active_witness :
  ∃ st',
    StopDeviceUpdates Stub.buffered = Returned () st'
    ∧ receive_n (Some 0%nat) 1 st'
      = Returned [mkDeviceUpdate DeviceUpdateTypeAdd Stub.dev1]
          (state_of (receive_n (Some 0%nat) 1 st')).
Proof.
  destruct (StopDeviceUpdates_active Stub.buffered 0
              (Chan [mkDeviceUpdate DeviceUpdateTypeAdd Stub.dev1] deviceUpdatesBuffering false))
    as (st' & E & _ & _ & st'' & En & _).
  - reflexivity.
  - reflexivity.
  - reflexivity.
  - exists st'. split; [exact E|].
    change (receive_n (Some 0%nat) 1 st'
            = Returned [mkDeviceUpdate DeviceUpdateTypeAdd Stub.dev1] st'') in En.
    rewrite En. reflexivity.
Defined.

Lemma genClientID_structure_witness :
  ∃ r, Stub.rand_Int 100000 = RandOk r
     ∧ 0 ≤ r < 100000
     ∧ "svc1-56789" = "svc1" +:+ "-" +:+ big_String r
     ∧ Z.of_int <$> NilZero.int_of_string (big_String r) = Some r.
Proof.
  apply (genClientID_structure Stub.rand_Int (svc (Stub.started [] []))).
  intros r [= <-]. lia.
Defined.

End ServiceProperties.

(** ** More properties of the REST operations *)
Module RestRequests.
Import Go rest wire.
Import RestProperties.

Lemma foldl_insert_lookup (l : list KeyValuePair) :
  ∀ (m : gmap string string) (key : string),
    foldl (λ m v, <[Key v := Value v]> m) m l !! key
    = match last_value l key with
      | Some v => Some v
      | None => m !! key
      end.
Proof.
  induction l as [|p l IH]; intros m key; cbn; [done|].
  rewrite IH. destruct (last_value l key) as [v|]; [done|].
  destruct (decide (Key p = key)) as [<-|Hne].
  - apply lookup_insert_eq.
  - by apply lookup_insert_ne.
Qed.

Lemma last_value_app (l1 l2 : list KeyValuePair) (key : string) :
  last_value (l1 ++ l2) key
  = match last_value l2 key with
    | Some v => Some v
    | None => last_value l1 key
    end.
Proof.
  induction l1 as [|p l1 IH]; cbn.
  - by destruct (last_value l2 key).
  - rewrite IH. by destruct (last_value l2 key).
Qed.

Lemma last_value_None (l : list KeyValuePair) (key : string) :
  last_value l key = None ↔ key ∉ Key <$> l.
Proof.
  induction l as [|p l IH]; cbn.
  - split; [intros _ Hin; by apply elem_of_nil in Hin|done].
  - rewrite not_elem_of_cons. destruct IH as [IH1 IH2].
    destruct (last_value l key) as [v|].
    + split; [done|]. intros [_ Hn]. by apply IH2.
    + destruct (decide (Key p = key)) as [E|Hne].
      * split; [done|]. intros [Hn _]. by destruct Hn.
      * split; [|done]. intros _. split; [done|by apply IH1].
Qed.

Lemma last_value_elem (l : list KeyValuePair) (key v : string) :
  last_value l key = Some v → mkKeyValuePair key v ∈ l.
Proof.
  induction l as [|p l IH]; cbn; [done|].
  destruct (last_value l key) as [w|].
  - intros [= ->]. apply list_elem_of_further. by apply IH.
  - destruct (decide (Key p = key)) as [<-|]; [|done].
    intros [= <-]. destruct p. apply list_elem_of_here.
Qed.

(** X6. In the map GetConfigMap builds, a key that occurs several times in
    the config list is mapped to the value of its last occurrence. *)
Theorem GetConfigMap_last_wins (i : ServiceDeviceListItem)
    (before after : list KeyValuePair) (p : KeyValuePair) :
  elems (Config i) = before ++ p :: after →
  Key p ∉ Key <$> after →
  GetConfigMap i !! Key p = Some (Value p).
Proof.
  intros Hl Hlast. unfold GetConfigMap.
  rewrite foldl_insert_lookup, Hl, last_value_app. cbn.
  apply last_value_None in Hlast. rewrite Hlast.
  by rewrite decide_True.
Qed.

(** X7. The keys of the map GetConfigMap builds are exactly the keys that
    occur in the config list; a nil or empty list gives the empty map. *)
Theorem GetConfigMap_keys (i : ServiceDeviceListItem) (key : string) :
  is_Some (GetConfigMap i !! key) ↔ key ∈ Key <$> elems (Config i).
Proof.
  unfold GetConfigMap. rewrite foldl_insert_lookup, lookup_empty.
  destruct (last_value (elems (Config i)) key) as [v|] eqn:E.
  - split; [intros _|by eauto].
    destruct (decide (key ∈ Key <$> elems (Config i))) as [|Hn]; [done|].
    apply last_value_None in Hn. congruence.
  - apply last_value_None in E. split; [by intros [? [=]]|done].
Qed.

(** X8. When no key occurs twice in the config list, the map GetConfigMap
    builds holds exactly the pairs of the list, one entry per pair. *)
Theorem GetConfigMap_round_trip (i : ServiceDeviceListItem) :
  NoDup (Key <$> elems (Config i)) →
  (∀ key v, GetConfigMap i !! key = Some v ↔ mkKeyValuePair key v ∈ elems (Config i))
  ∧ size (GetConfigMap i) = length (elems (Config i)).
Proof.
  unfold GetConfigMap. generalize (elems (Config i)) as l. intros l Hnd. split.
  - intros key v. rewrite foldl_insert_lookup, lookup_empty. split.
    + destruct (last_value l key) as [w|] eqn:E; [|done].
      intros [= ->]. by apply last_value_elem.
    + intros Hin. apply list_elem_of_split in Hin as (l1 & l2 & ->).
      rewrite last_value_app. cbn.
      rewrite fmap_app, fmap_cons in Hnd. cbn in Hnd.
      apply NoDup_app in Hnd as (_ & _ & Hnd). apply NoDup_cons in Hnd as [Hnot _].
      apply last_value_None in Hnot. rewrite Hnot. by rewrite decide_True.
  - induction l as [|p l IH] using rev_ind; [done|].
    rewrite fmap_app in Hnd. apply NoDup_app in Hnd as (Hl & Hnot & _).
    rewrite foldl_app, length_app. cbn.
    rewrite map_size_insert_None.
    + rewrite IH by done. lia.
    + rewrite foldl_insert_lookup, lookup_empty.
      destruct (last_value l (Key p)) as [v|] eqn:E; [|done].
      apply last_value_elem in E.
      exfalso. apply (Hnot (Key p)).
      * apply list_elem_of_fmap. by exists (mkKeyValuePair (Key p) v).
      * cbn. apply list_elem_of_here.
Qed.


Section WithPlatform.
Context `{Platform}.

Ltac exchange :=
  unfold one_exchange, sent, body_closes, responses;
  match goal with
  | |- context [client ?h ?rq] =>
      destruct (client h rq) as [?|?] eqn:E;
        [destruct (decide _);
           [|try destruct (json_ServiceNode _ _);
             try destruct (json_ServiceDeviceListItems _ _);
             try destruct (json_hackServiceNode _ _)]|];
      cbn; rewrite ?E; cbn; split; (lia || reflexivity)
  end.

(** X9. No operation retries and none leaks a response: each hands at most
    one request to the HTTP client, and closes a response body exactly
    when the client answered with a response. *)
Theorem one_request_one_close (host : Host) :
  (∀ serviceid, one_exchange host (RequestServiceInfo host serviceid).2)
  ∧ (∀ serviceid, one_exchange host (RequestServiceDeviceList host serviceid).2)
  ∧ (∀ name description properties configParams,
       one_exchange host (ServiceCreate host name description properties configParams).2)
  ∧ (∀ serviceid, one_exchange host (ServiceDelete host serviceid).2).
Proof.
  split; [|split; [|split]].
  - intros serviceid. unfold RequestServiceInfo.
    destruct (http_NewRequest _ _ _) as [r|e]; cbn; [|by split; cbn; lia].
    exchange.
  - intros serviceid. unfold RequestServiceDeviceList.
    destruct (http_NewRequest _ _ _) as [r|e]; cbn; [|by split; cbn; lia].
    exchange.
  - intros name description properties configParams. unfold ServiceCreate.
    destruct (json_Marshal _) as [body|e]; cbn; [|by split; cbn; lia].
    destruct (http_NewRequest _ _ _) as [r|e]; cbn; [|by split; cbn; lia].
    exchange.
  - intros serviceid. unfold ServiceDelete.
    destruct (http_NewRequest _ _ _) as [r|e]; cbn; [|by split; cbn; lia].
    exchange.
Qed.

Ltac built Hin :=
  unfold http_NewRequest in *;
  destruct (http_NewRequest_err _ _ _) as [e|]; cbn in Hin |- *; [inv_do Hin|];
  match type of Hin with
  | context [client _ ?rq] => split_client rq; cbn in Hin; inv_do Hin
  end.

(** X10. The request each operation sends: its method, its URL under the
    host's URI, no body and no header for GET and DELETE, the marshalled
    create request and one Content-Type header for POST, and in every
    case the basic-auth credentials of the host.  ServiceCreate marshals
    its four arguments as they are: the two nil checks change nothing. *)
Theorem request_sent (host : Host) (req : Request) :
  let base := uri host +:+ rootAPISubPath +:+ servicesSubPath in
  let auth := Some (user host, pass host) in
  (∀ serviceid,
     EvDo req ∈ (RequestServiceInfo host serviceid).2 →
     req = mkRequest "GET" (base +:+ "/" +:+ serviceid) None [] auth)
  ∧ (∀ serviceid,
       EvDo req ∈ (RequestServiceDeviceList host serviceid).2 →
       req = mkRequest "GET" (base +:+ "/" +:+ serviceid +:+ serviceDevicesSubPath)
               None [] auth)
  ∧ (∀ name description properties configParams,
       EvDo req ∈ (ServiceCreate host name description properties configParams).2 →
       ∃ body,
         json_Marshal (mkServiceCreateRequest name description properties configParams)
         = inl body
         ∧ req = mkRequest "POST" base (Some body)
                   [("Content-Type", "application/json")] auth)
  ∧ (∀ serviceid,
       EvDo req ∈ (ServiceDelete host serviceid).2 →
       req = mkRequest "DELETE" (base +:+ "/" +:+ serviceid) None [] auth).
Proof.
  intros base auth. subst base auth.
  assert (Happ : ∀ a b c : string, (a +:+ b) +:+ c = a +:+ b +:+ c).
  { intros a b c. induction a as [|x a IH]; [done|].
    change (String x ((a +:+ b) +:+ c) = String x (a +:+ b +:+ c)). by f_equal. }
  split; [|split; [|split]].
  - intros serviceid Hin. unfold RequestServiceInfo in Hin.
    built Hin; by rewrite ?Happ.
  - intros serviceid Hin. unfold RequestServiceDeviceList in Hin.
    built Hin; by rewrite ?Happ.
  - intros name description properties configParams Hin. unfold ServiceCreate in Hin.
    assert (Hreq :
      (let serviceReq := mkServiceCreateRequest name description None nil_slice in
       let serviceReq :=
         match properties with
         | Some _ => mkServiceCreateRequest (req_Name serviceReq)
                       (req_Description serviceReq) properties
                       (req_ConfigParameters serviceReq)
         | None => serviceReq
         end in
       if is_nil configParams then serviceReq
       else mkServiceCreateRequest (req_Name serviceReq) (req_Description serviceReq)
              (req_Properties serviceReq) configParams)
      = mkServiceCreateRequest name description properties configParams)
      by (by destruct properties, configParams).
    cbv zeta in Hin, Hreq. rewrite Hreq in Hin.
    destruct (json_Marshal _) as [body|e]; cbn in Hin; [|inv_do Hin].
    exists body. split; [done|].
    built Hin; by rewrite ?Happ.
  - intros serviceid Hin. unfold ServiceDelete in Hin.
    built Hin; by rewrite ?Happ.
Qed.

(** X11. ServiceDelete succeeds on the OK status alone: whatever the body of
    the response, the error is nil and nothing is decoded. *)
Theorem ServiceDelete_OK (host : Host) (serviceid : string) (req : Request)
    (resp : Response) :
  EvDo req ∈ (ServiceDelete host serviceid).2 →
  client host req = inl resp →
  StatusCode resp = httpStatusCodeOK →
  (ServiceDelete host serviceid).1 = None ∧ ¬ decoded (ServiceDelete host serviceid).2.
Proof.
  intros Hin Hdo Hok.
  rewrite (ServiceDelete_answer _ _ _ Hin), Hdo, decide_False by (by intros ?).
  split; [done|]. apply (not_decoded_closed []). intros b Hb. inv_do Hb.
Qed.

End WithPlatform.

#[local] Existing Instance Stub.platform.

Lemma GetConfigMap_last_wins_witness :
  GetConfigMap Stub.twice !! "AppKey" = Some "new".
Proof.
  apply (GetConfigMap_last_wins Stub.twice
           [mkKeyValuePair "AppKey" "old"; mkKeyValuePair "DevEUI" "test1"]
           [] (mkKeyValuePair "AppKey" "new")).
  - reflexivity.
  - apply not_elem_of_nil.
Defined.

Lemma GetConfigMap_round_trip_witness :
  (∀ key v,
     GetConfigMap Stub.device !! key = Some v
     ↔ mkKeyValuePair key v ∈ elems (Config Stub.device))
  ∧ size (GetConfigMap Stub.device) = 2%nat.
Proof.
  apply (GetConfigMap_round_trip Stub.device).
  apply (bool_decide_unpack (NoDup (Key <$> elems (Config Stub.device)))).
  vm_compute. exact I.
Defined.

Lemma ServiceDelete_OK_witness :
  (ServiceDelete (Stub.host Stub.created) "svc1").1 = None
  ∧ ¬ decoded (ServiceDelete (Stub.host Stub.created) "svc1").2.
Proof.
  apply (ServiceDelete_OK (Stub.host Stub.created) "svc1"
           (SetBasicAuth
              (mkRequest "DELETE" "http://localhost:7000/api/service/svc1" None [] None)
              "svc1" "secret")
           Stub.created).
  - vm_compute. apply list_elem_of_here.
  - reflexivity.
  - reflexivity.
Defined.

End RestRequests.

(** ** More properties of the service context *)
Module Lifecycle.
Import Go framework.
Import ServiceProperties.

Section WithRuntime.
Context `{Runtime}.

(** A channel hands out what it holds, oldest first, whether or not it
    is closed. *)
Lemma receive_n_buffered (c : nat) (k : nat) (cl : bool) (b : list DeviceUpdate) :
  ∀ st, chans st !! c = Some (Chan b k cl) →
  ∃ st', receive_n (Some c) (length b) st = Returned b st'
       ∧ chans st' !! c = Some (Chan [] k cl)
       ∧ svc st' = svc st.
Proof.
  induction b as [|u b IH]; intros st Hc.
  - by exists st.
  - cbn [length receive_n]. unfold mbind, M_bind, receive at 1. rewrite Hc. cbn.
    set (st1 := mkState _ _ _).
    destruct (IH st1) as (st' & E & Hc' & Hs).
    { subst st1. cbn. apply list_lookup_insert_eq. by eapply lookup_lt_Some. }
    exists st'. by rewrite E.
Qed.

Lemma deliver_decoded (st : State) (c : nat) (q : chan DeviceUpdate)
    (h : TopicHandler) (payload : string) (mqttMsg : ServiceUpdatesEncapsulation) :
  Active c st → chans st !! c = Some q → json_Unmarshal payload = inl mqttMsg →
  deliver (topic_of st h) payload st
  = send (Some c) (mkDeviceUpdate (kind h) (Thing mqttMsg)) st.
Proof.
  intros HA Hq E. unfold deliver. rewrite (Active_route c st h HA).
  destruct HA as (Hu & _). by rewrite (call_decoded _ _ _ _ _ E), Hu.
Qed.

Lemma Active_same_service (c : nat) (st st' : State) (q : chan DeviceUpdate) :
  Active c st → svc st' = svc st → chans st' !! c = Some q → closed q = false →
  Active c st'.
Proof.
  intros (Hu & _ & Ha & Hr & Hp) Hs Hq Hopen.
  unfold Active, topicAdd, topicRem, topicUpd, root_topic in *. rewrite Hs.
  split; [done|]. split; [by exists q|]. done.
Qed.

Lemma topic_of_same_service (st st' : State) (h : TopicHandler) :
  svc st' = svc st → topic_of st' h = topic_of st h.
Proof.
  intros Hs. destruct h; unfold topic_of, topicAdd, topicRem, topicUpd, root_topic;
    by rewrite Hs.
Qed.

(** Deliveries that fit are appended to the queue in the order they
    come in. *)
Lemma deliver_all_buffered
    (ds : list (TopicHandler * string * ServiceUpdatesEncapsulation)) :
  ∀ (st0 st : State) (c : nat) (b : list DeviceUpdate) (k : nat),
    Active c st → svc st = svc st0 → chans st !! c = Some (Chan b k false) →
    Forall (λ d, json_Unmarshal d.1.2 = inl d.2) ds →
    (length b + length ds ≤ k)%nat →
    ∃ st',
      service.deliver_all ((λ d, (topic_of st0 d.1.1, d.1.2)) <$> ds) st = Returned () st'
      ∧ svc st' = svc st0
      ∧ chans st' !! c
        = Some (Chan (b ++ ((λ d, mkDeviceUpdate (kind d.1.1) (Thing d.2)) <$> ds)) k false).
Proof.
  induction ds as [|[[h payload] mqttMsg] ds IH]; intros st0 st c b k HA Hs Hq Hds Hlen.
  - exists st. by rewrite app_nil_r.
  - apply Forall_cons in Hds as [Hd Hds]. cbn in Hd, Hlen.
    cbn [fmap list_fmap service.deliver_all]. cbn [fst snd].
    unfold mbind, M_bind.
    rewrite <- (topic_of_same_service st0 st h) by done.
    rewrite (deliver_decoded st c _ h payload mqttMsg HA Hq Hd).
    unfold send, chan_send. rewrite Hq. cbn [closed buf cap].
    destruct (Nat.ltb_spec (length b) k) as [_|Hge]; [|lia].
    set (u := mkDeviceUpdate (kind h) (Thing mqttMsg)).
    set (st1 := mkState _ _ _).
    assert (Hq1 : chans st1 !! c = Some (Chan (b ++ [u]) k false)).
    { subst st1. cbn. apply list_lookup_insert_eq. by eapply lookup_lt_Some. }
    destruct (IH st0 st1 c (b ++ [u]) k) as (st' & E & Hs' & Hq').
    + by eapply Active_same_service.
    + done.
    + done.
    + done.
    + rewrite length_app. cbn. lia.
    + exists st'. split; [done|]. split; [done|].
      rewrite Hq'. by rewrite <- app_assoc.
Qed.

(** X12. Updates come out of the queue as they went in: while the
    multiplexer is Active, deliveries of decodable payloads that fit the
    queue all return, and receiving then yields what was buffered before
    followed by one update per delivery, in delivery order, each tagged
    by the topic it came in on. *)
Theorem deliver_then_receive (st : State) (c : nat) (q : chan DeviceUpdate)
    (ds : list (TopicHandler * string * ServiceUpdatesEncapsulation)) :
  Active c st → chans st !! c = Some q →
  Forall (λ d, json_Unmarshal d.1.2 = inl d.2) ds →
  (length (buf q) + length ds ≤ cap q)%nat →
  let ups := (λ d, mkDeviceUpdate (kind d.1.1) (Thing d.2)) <$> ds in
  ∃ st' st'',
    service.deliver_all ((λ d, (topic_of st d.1.1, d.1.2)) <$> ds) st = Returned () st'
    ∧ Active c st'
    ∧ receive_n (Some c) (length (buf q ++ ups)) st' = Returned (buf q ++ ups) st''.
Proof.
  intros HA Hq Hds Hlen ups.
  pose proof HA as (_ & (q' & Hq' & Hopen) & _).
  rewrite Hq in Hq'. injection Hq' as <-.
  destruct q as [b k cl]. cbn in Hopen, Hlen |- *. subst cl.
  destruct (deliver_all_buffered ds st st c b k HA eq_refl Hq Hds Hlen)
    as (st' & E & Hs & Hq').
  destruct (receive_n_buffered c k false (b ++ ups) st' Hq') as (st'' & En & _).
  exists st', st''. split; [done|]. split; [|done].
  by eapply Active_same_service.
Qed.

(** X13. Backpressure at the bound: once deliveries have filled the queue to
    its capacity, the next decodable delivery waits in its send and
    changes nothing, while a payload that does not decode is still
    logged and dropped without waiting. *)
Theorem full_queue_blocks (st : State) (c : nat) (q : chan DeviceUpdate)
    (ds : list (TopicHandler * string * ServiceUpdatesEncapsulation))
    (h : TopicHandler) (payload : string) :
  Active c st → chans st !! c = Some q →
  Forall (λ d, json_Unmarshal d.1.2 = inl d.2) ds →
  (length (buf q) + length ds = cap q)%nat →
  ∃ st',
    service.deliver_all ((λ d, (topic_of st d.1.1, d.1.2)) <$> ds) st = Returned () st'
    ∧ match json_Unmarshal payload with
      | inl mqttMsg =>
          deliver (topic_of st h) payload st'
          = Blocked (EvSend (Some c) (mkDeviceUpdate (kind h) (Thing mqttMsg))) st'
      | inr _ =>
          ∃ line, deliver (topic_of st h) payload st'
                  = Returned () (mkState (svc st') (chans st') (events st' ++ [EvLog line]))
      end.
Proof.
  intros HA Hq Hds Hlen.
  pose proof HA as (_ & (q' & Hq' & Hopen) & _).
  rewrite Hq in Hq'. injection Hq' as <-.
  destruct q as [b k cl]. cbn in Hopen, Hlen. subst cl.
  destruct (deliver_all_buffered ds st st c b k HA eq_refl Hq Hds) as (st' & E & Hs & Hq');
    [lia|].
  exists st'. split; [done|].
  assert (HA' : Active c st') by by eapply Active_same_service.
  rewrite <- (topic_of_same_service st st' h) by done.
  destruct (json_Unmarshal payload) as [mqttMsg|e] eqn:Ep.
  - rewrite (deliver_decoded st' c _ h payload mqttMsg HA' Hq' Ep).
    unfold send, chan_send. rewrite Hq'. cbn [closed buf cap].
    destruct (Nat.ltb_spec (length (b ++ ((λ d, mkDeviceUpdate (kind d.1.1) (Thing d.2)) <$> ds))) k)
      as [Hlt|_]; [|done].
    rewrite length_app, length_fmap in Hlt. lia.
  - eexists. unfold deliver. rewrite (Active_route c st' h HA').
    by apply call_malformed with (e := e).
Qed.

(** X14. StopDeviceUpdates is not idempotent: it leaves [s.updates] pointing
    at the closed queue, so a second call unsubscribes the three topics
    again and then panics in [close]. *)
Theorem StopDeviceUpdates_twice (st : State) (c : nat) (q : chan DeviceUpdate) :
  updates (svc st) = Some c → chans st !! c = Some q → closed q = false →
  ∃ st',
    (StopDeviceUpdates;; StopDeviceUpdates) st = Panicked "close of closed channel" st'
    ∧ chans st' = <[c := Chan (buf q) (cap q) true]> (chans st)
    ∧ updates (svc st') = Some c.
Proof.
  intros Hu Hq Hopen.
  destruct st as [s cs evs]. cbn in Hu, Hq.
  run. rewrite Hu. cbn -[insert delete lookup]. rewrite Hq. unfold chan_close. rewrite Hopen.
  cbn -[insert delete lookup]. rewrite Hu. cbn -[insert delete lookup].
  rewrite list_lookup_insert_eq by (by eapply lookup_lt_Some).
  cbn -[insert delete lookup]. by eexists.
Qed.

(** X15. A message still on its way when StopDeviceUpdates runs brings the
    process down: the callback reads the closed queue from [s.updates]
    and panics on its send; a payload that does not decode is only
    logged. *)
Theorem callback_after_stop (st : State) (c : nat) (q : chan DeviceUpdate)
    (h : TopicHandler) (topic payload : string) :
  updates (svc st) = Some c → chans st !! c = Some q → closed q = false →
  ∃ st',
    StopDeviceUpdates st = Returned () st'
    ∧ match json_Unmarshal payload with
      | inl _ => call h topic payload st' = Panicked "send on closed channel" st'
      | inr _ =>
          ∃ line, call h topic payload st'
                  = Returned () (mkState (svc st') (chans st') (events st' ++ [EvLog line]))
      end.
Proof.
  intros Hu Hq Hopen.
  destruct st as [s cs evs]. cbn in Hu, Hq.
  run. rewrite Hu. cbn -[insert delete lookup]. rewrite Hq. unfold chan_close. rewrite Hopen.
  eexists; split; [reflexivity|].
  destruct (json_Unmarshal payload) as [mqttMsg|e] eqn:Ep.
  - rewrite (call_decoded _ _ _ _ _ Ep). cbn -[insert delete lookup]. rewrite Hu.
    unfold send. cbn -[insert delete lookup].
    rewrite list_lookup_insert_eq by (by eapply lookup_lt_Some). done.
  - eexists. by apply call_malformed with (e := e).
Qed.

Lemma bind_returned {A B} (m : M A) (f : A → M B) (st st' : State) (a : A) :
  m st = Returned a st' → (m ≫= f) st = f a st'.
Proof. intros E. unfold mbind, M_bind. by rewrite E. Qed.

(** The state an accepted start leaves. *)
Lemma StartDeviceUpdates_accepted (s : Service) (cs : list (chan DeviceUpdate))
    (evs : list Event) (subs : list (option string)) :
  let root := rest.Topic (rest.Pubsub (rest.Descriptor (node s))) in
  let c := mqtt s in
  StartDeviceUpdates
    (mkState (with_mqtt s (mkClient (None :: None :: None :: subs) (unsub_acks c)
                             (pub_acks c) (routes c)))
       cs evs)
  = Returned (Some (length cs), None)
      (mkState
         (mkService (id s) (host s)
            (mkClient subs (unsub_acks c) (pub_acks c)
               (<[root +:+ "/thing/update" := onThingUpdate]>
                  (<[root +:+ "/thing/remove" := onThingRemove]>
                     (<[root +:+ "/thing/new" := onThingNew]> (routes c)))))
            (node s) (Some (length cs)))
         (cs ++ [make_chan deviceUpdatesBuffering])
         (evs ++ [EvMake (length cs) deviceUpdatesBuffering;
                  EvSubscribe (root +:+ "/thing/new") qos_byte onThingNew None;
                  EvSubscribe (root +:+ "/thing/remove") qos_byte onThingRemove None;
                  EvSubscribe (root +:+ "/thing/update") qos_byte onThingUpdate None])).
Proof.
  intros root c. subst root c. destruct s as [i h c n u].
  unfold StartDeviceUpdates, mbind, M_bind, mret, M_ret, make,
    set_updates, get_updates, pubsub_topic, Subscribe.
  cbn -[insert delete lookup]. by rewrite <- !app_assoc.
Qed.

(** X16. StartDeviceUpdates does not check for a running multiplexer: called
    again while Active it makes a second queue and points [s.updates] at
    it; the first queue is never closed, not even by StopDeviceUpdates,
    so a receive on the first handle waits forever. *)
Theorem StartDeviceUpdates_twice (st : State) (subs unsubs : list (option string)) :
  let first := length (chans st) in
  ∃ st',
    (StartDeviceUpdates;; StartDeviceUpdates;; StopDeviceUpdates)
      (with_acks st (None :: None :: None :: None :: None :: None :: subs) unsubs)
    = Returned () st'
    ∧ chans st' = chans st ++ [Chan [] deviceUpdatesBuffering false;
                               Chan [] deviceUpdatesBuffering true]
    ∧ updates (svc st') = Some (S first)
    ∧ receive (Some first) st' = Blocked (EvRecv (Some first)) st'.
Proof.
  intros first. subst first. destruct st as [s cs evs]. unfold with_acks. cbn [svc chans events].
  erewrite bind_returned; [|apply (StartDeviceUpdates_accepted
    (with_mqtt s (mkClient [] unsubs (pub_acks (mqtt s)) (routes (mqtt s)))))].
  cbn -[insert delete lookup StartDeviceUpdates StopDeviceUpdates].
  match goal with
  | |- context [mbind _ StartDeviceUpdates (mkState ?s' ?cs' ?evs')] =>
      pose proof (StartDeviceUpdates_accepted
                    (with_mqtt s' (mkClient [] (unsub_acks (mqtt s')) (pub_acks (mqtt s'))
                                     (routes (mqtt s'))))
                    cs' evs' subs) as E2
  end.
  cbn -[insert delete lookup StartDeviceUpdates StopDeviceUpdates] in E2.
  erewrite bind_returned; [|exact E2]. clear E2.
  unfold StopDeviceUpdates, mbind, M_bind, mret, M_ret, get_updates, pubsub_topic,
    Unsubscribe, close.
  cbn -[insert delete lookup].
  rewrite length_app. cbn [length]. rewrite Nat.add_1_r.
  replace (S (length cs)) with (length (cs ++ [make_chan (A:=DeviceUpdate) deviceUpdatesBuffering]))
    by (rewrite length_app; cbn; lia).
  rewrite lookup_fresh. cbn -[insert delete lookup].
  eexists; split; [reflexivity|]. cbn -[insert delete lookup].
  rewrite insert_fresh, <- app_assoc.
  split; [done|]. split; [cbn; by rewrite length_app, Nat.add_1_r|].
  unfold receive. cbn -[insert delete lookup].
  by rewrite (list_lookup_middle cs [_] _ (length cs) eq_refl).
Qed.

End WithRuntime.

#[local] Existing Instance Stub.runtime.

Lemma deliver_then_receive_witness :
  ∃ st' st'',
    service.deliver_all ((λ d, (topic_of Stub.active d.1.1, d.1.2)) <$> Fake.two_updates)
      Stub.active
    = Returned () st'
    ∧ Active 0 st'
    ∧ receive_n (Some 0%nat) 2 st'
      = Returned [mkDeviceUpdate DeviceUpdateTypeAdd Stub.dev1;
                  mkDeviceUpdate DeviceUpdateTypeUpd Stub.dev1] st''.
Proof.
  refine (deliver_then_receive Stub.active 0 (make_chan deviceUpdatesBuffering)
            Fake.two_updates Stub_active eq_refl _ _).
  - repeat constructor.
  - vm_compute. lia.
Defined.

Lemma full_queue_blocks_witness :
  ∃ st',
    service.deliver_all ((λ d, (topic_of Stub.active d.1.1, d.1.2)) <$> Fake.ten_updates)
      Stub.active
    = Returned () st'
    ∧ deliver (topic_of Stub.active onThingNew) "thing:dev1" st'
      = Blocked (EvSend (Some 0%nat) (mkDeviceUpdate DeviceUpdateTypeAdd Stub.dev1)) st'.
Proof.
  refine (full_queue_blocks Stub.active 0 (make_chan deviceUpdatesBuffering)
            Fake.ten_updates onThingNew "thing:dev1" Stub_active eq_refl _ _).
  - repeat constructor.
  - reflexivity.
Defined.

Lemma StopDeviceUpdates_twice_witness :
  ∃ st',
    (StopDeviceUpdates;; StopDeviceUpdates) Stub.active
    = Panicked "close of closed channel" st'
    ∧ chans st' = [Chan [] deviceUpdatesBuffering true]
    ∧ updates (svc st') = Some 0%nat.
Proof.
  refine (StopDeviceUpdates_twice Stub.active 0 (make_chan deviceUpdatesBuffering) _ _ _);
    reflexivity.
Defined.

Lemma callback_after_stop_witness :
  ∃ st',
    StopDeviceUpdates Stub.active = Returned () st'
    ∧ call onThingNew "openchirp/services/svc1/thing/new" "thing:dev1" st'
      = Panicked "send on closed channel" st'.
Proof.
  refine (callback_after_stop Stub.active 0 (make_chan deviceUpdatesBuffering)
            onThingNew "openchirp/services/svc1/thing/new" "thing:dev1" _ _ _);
    reflexivity.
Defined.

End Lifecycle.

(** ** Properties of StartService *)
Module Starting.
Import Go framework.
Import ServiceProperties.

Lemma big_String_inj (r1 r2 : Z) : big_String r1 = big_String r2 → r1 = r2.
Proof.
  intros E. pose proof (big_String_decimal r1) as E1.
  rewrite E, big_String_decimal in E1. by injection E1.
Qed.

(** X17. For one service, two client IDs are equal only when the same number
    was drawn: nothing else tells two processes of a service apart. *)
Theorem genClientID_same_draw (rand1 rand2 : Z → RandInt) (s : Service) (r1 r2 : Z) :
  rand1 100000 = RandOk r1 → rand2 100000 = RandOk r2 →
  genClientID rand1 s = genClientID rand2 s ↔ r1 = r2.
Proof.
  intros E1 E2. unfold genClientID. rewrite E1, E2. split.
  - intros [= E]. apply append_inj_r in E. apply (append_inj_r "-") in E.
    by apply big_String_inj.
  - by intros ->.
Qed.

Section WithPlatform.
Context `{rest.Platform} `{Runtime}.
Variable rand_Int : Z → RandInt.
Variable NewClient : service.ClientOptions → Client * option string.

(** X18. When the service information cannot be fetched, StartService returns
    that error and no service; it has not drawn a client ID nor tried to
    connect to the broker. *)
Theorem StartService_info_failed (host : rest.Host) (serviceID : string) (e : rest.error) :
  (rest.RequestServiceInfo host serviceID).1.2 = Some e →
  let r := service.StartService rand_Int NewClient host serviceID in
  r.1 = Value (None, Some (service.InfoError e))
  ∧ r.2 = service.EvInfo <$> (rest.RequestServiceInfo host serviceID).2
  ∧ (∀ max, service.EvRand max ∉ r.2)
  ∧ (∀ opts, service.EvConnect opts ∉ r.2).
Proof.
  intros E r. subst r. unfold service.StartService. cbn [id framework.host].
  destruct (rest.RequestServiceInfo host serviceID) as [[n err] evs]. cbn in E. subst err.
  cbn. split; [done|]. split; [done|].
  split; intros x Hin; apply list_elem_of_fmap in Hin as (ev & Hev & _); discriminate Hev.
Qed.

(** X19. Once the service information is there, StartService draws the
    client ID and connects with the broker address, user and password
    found in the node's properties under MQTTBroker, MQTTUser and
    MQTTPass.  A rejected connection is returned as the error; otherwise
    the service holds the ID asked for, the host, the node fetched, the
    new client and no update queue.  If no number can be drawn the
    process ends before any connection is tried. *)
Theorem StartService_connect (host : rest.Host) (serviceID : string)
    (node : rest.ServiceNode) :
  (rest.RequestServiceInfo host serviceID).1 = (node, None) →
  let props := rest.Properties node in
  let r := service.StartService rand_Int NewClient host serviceID in
  match rand_Int 100000 with
  | RandErr _ =>
      (∃ msg, r.1 = Fatal msg) ∧ (∀ opts, service.EvConnect opts ∉ r.2)
  | RandOk n =>
      let opts :=
        service.mkClientOptions [service.index props "MQTTBroker"]
          (rest.ID (rest.Descriptor node) +:+ "-" +:+ big_String n)
          (service.index props "MQTTUser") (service.index props "MQTTPass") in
      r.2 = (service.EvInfo <$> (rest.RequestServiceInfo host serviceID).2)
            ++ [service.EvRand 100000; service.EvConnect opts]
      ∧ r.1 = match (NewClient opts).2 with
              | Some e => Value (None, Some (service.ConnectError e))
              | None =>
                  Value (Some (mkService serviceID host (NewClient opts).1 node None), None)
              end
  end.
Proof.
  intros E props r. subst props r. unfold service.StartService, genClientID.
  cbn [id framework.host framework.node updates mqtt].
  destruct (rest.RequestServiceInfo host serviceID) as [[n err] evs].
  cbn in E. injection E as -> ->. cbn [framework.node].
  destruct (rand_Int 100000) as [k|msg].
  - cbn -[service.index]. destruct (NewClient _) as [c [e|]]; cbn -[service.index];
      by rewrite <- app_assoc.
  - cbn. split; [by eexists|]. intros opts Hin.
    apply elem_of_app in Hin as [Hin|Hin].
    + apply list_elem_of_fmap in Hin as (ev & Hev & _). discriminate Hev.
    + apply elem_of_cons in Hin as [Hin|Hin]; [discriminate Hin|].
      by apply elem_of_nil in Hin.
Qed.

(** X20. StartService does not validate the broker settings: when the node
    has no MQTTBroker property (or no properties at all) the connection
    is still tried, with the empty string as the broker address. *)
Theorem StartService_no_broker_property (host : rest.Host) (serviceID : string)
    (node : rest.ServiceNode) (n : Z) :
  (rest.RequestServiceInfo host serviceID).1 = (node, None) →
  rand_Int 100000 = RandOk n →
  rest.Properties node ≫= lookup "MQTTBroker" = None →
  ∃ opts,
    service.EvConnect opts ∈ (service.StartService rand_Int NewClient host serviceID).2
    ∧ service.Servers opts = [""].
Proof.
  intros E En Hno.
  unfold service.StartService, genClientID.
  cbn [id framework.host framework.node updates mqtt].
  destruct (rest.RequestServiceInfo host serviceID) as [[n' err] evs].
  cbn in E. injection E as -> ->. cbn [framework.node]. rewrite En.
  assert (Hidx : service.index (rest.Properties node) "MQTTBroker" = "").
  { unfold service.index, map_index. destruct (rest.Properties node) as [m|]; [|done].
    cbn in Hno. by rewrite Hno. }
  cbn -[service.index]. rewrite Hidx.
  destruct (NewClient _) as [c [e|]]; cbn -[service.index];
    (eexists; split; [apply elem_of_app; right; apply list_elem_of_here|done]).
Qed.

(** X21. What a caller holds after a successful StartService: a service for
    the ID and host it asked for, whose node is the one the platform
    returned and whose properties GetProperty reads; FetchDeviceConfigs
    on it is the device-list request for that host and ID; and it has no
    update queue yet, so StopDeviceUpdates before StartDeviceUpdates
    panics. *)
Theorem StartService_then (host : rest.Host) (serviceID : string) (s : Service) :
  (service.StartService rand_Int NewClient host serviceID).1 = Value (Some s, None) →
  id s = serviceID
  ∧ framework.host s = host
  ∧ (rest.RequestServiceInfo host serviceID).1 = (framework.node s, None)
  ∧ updates s = None
  ∧ service.FetchDeviceConfigs s = rest.RequestServiceDeviceList host serviceID
  ∧ (∀ key, GetProperty s key
            = default "" (rest.Properties (rest.RequestServiceInfo host serviceID).1.1
                          ≫= lookup key))
  ∧ (∀ cs evs, ∃ st',
        StopDeviceUpdates (mkState s cs evs) = Panicked "close of nil channel" st').
Proof.
  unfold service.StartService, genClientID.
  cbn [id framework.host framework.node updates mqtt].
  destruct (rest.RequestServiceInfo host serviceID) as [[n err] evs0].
  destruct err as [e|]; cbn; [done|].
  destruct (rand_Int 100000) as [k|msg]; [|done].
  destruct (NewClient _) as [c [e|]]; cbn; [done|].
  intros [= <-]. cbn.
  split; [done|]. split; [done|]. split; [done|]. split; [done|]. split; [done|].
  split.
  - intros key. unfold GetProperty, map_index. cbn.
    destruct (rest.Properties n) as [m|]; cbn; [|done]. by destruct (m !! key).
  - intros cs evs. run. by eexists.
Qed.

End WithPlatform.

#[local] Existing Instance Fake.platform.
#[local] Existing Instance Stub.runtime.

Lemma genClientID_same_draw_witness :
  genClientID Fake.rand_Int (svc (Stub.started [] []))
  = genClientID Stub.rand_Int (svc (Stub.started [] []))
  ↔ 7 = 56789.
Proof.
  apply (genClientID_same_draw Fake.rand_Int Stub.rand_Int (svc (Stub.started [] []))
           7 56789);
    reflexivity.
Defined.

Lemma StartService_info_failed_witness :
  (service.StartService Fake.rand_Int Fake.accepting (Stub.host Stub.not_found) "svc1").1
  = Value (None, Some (service.InfoError (rest.StatusError "404 Not Found"))).
Proof.
  refine (proj1 (StartService_info_failed Fake.rand_Int Fake.accepting
                   (Stub.host Stub.not_found) "svc1" (rest.StatusError "404 Not Found") _)).
  reflexivity.
Defined.

Lemma StartService_connect_witness :
  (service.StartService Fake.rand_Int Fake.refusing (Stub.host Fake.served) "svc1").1
  = Value (None,
           Some (service.ConnectError "network Error : dial tcp: connection refused")).
Proof.
  refine (proj2 (StartService_connect Fake.rand_Int Fake.refusing
                   (Stub.host Fake.served) "svc1" Stub.node _)).
  reflexivity.
Defined.

Lemma StartService_no_broker_property_witness :
  ∃ opts,
    service.EvConnect opts
    ∈ (service.StartService Fake.rand_Int Fake.accepting (Stub.host Fake.served) "svc1").2
    ∧ service.Servers opts = [""].
Proof.
  refine (StartService_no_broker_property Fake.rand_Int Fake.accepting
            (Stub.host Fake.served) "svc1" Stub.node 7 _ _ _).
  - reflexivity.
  - reflexivity.
  - vm_compute. reflexivity.
Defined.

Lemma StartService_then_witness :
  service.FetchDeviceConfigs
    (mkService "svc1" (Stub.host Fake.served) service.no_Client Stub.node None)
  = rest.RequestServiceDeviceList (Stub.host Fake.served) "svc1".
Proof.
  refine (proj1 (proj2 (proj2 (proj2 (proj2
            (StartService_then Fake.rand_Int Fake.accepting (Stub.host Fake.served) "svc1"
               (mkService "svc1" (Stub.host Fake.served) service.no_Client Stub.node None)
               _)))))).
  vm_compute. reflexivity.
Defined.

End Starting.

(** ** Executions of the multiplexer *)
Module Executions.
Import Go framework execution.
Import ServiceProperties.



Section WithRuntime.
Context `{Runtime}.








(** An Unsubscribe, acknowledged or not, leaves the other topics alone. *)
Lemma lookup_unsubscribed (ack : option string) (topic topic' : string)
    (r : gmap string TopicHandler) :
  topic ≠ topic' →
  match ack with
  | None => delete topic r
  | Some _ => r
  end !! topic' = r !! topic'.
Proof. intros Hne. destruct ack; [done|]. by rewrite lookup_delete_ne. Qed.

(** X25. StopDeviceUpdates does not look at what Unsubscribe returns.
    When the broker rejects the unsubscribe of one of the three topics
    and keeps its callback, the queue is closed all the same; the next
    payload that decodes on that topic panics in its send on the closed
    queue, and nothing is queued. *)
Lemma deliver_after_stop (st : State) (c : nat) (q : chan DeviceUpdate)
    (h : TopicHandler) (e payload : string) (mqttMsg : ServiceUpdatesEncapsulation) :
  Active c st → chans st !! c = Some q →
  match h with
  | onThingNew => next_ack (unsub_acks (mqtt (svc st)))
  | onThingRemove => next_ack (tail (unsub_acks (mqtt (svc st))))
  | onThingUpdate => next_ack (tail (tail (unsub_acks (mqtt (svc st)))))
  end = Some e →
  json_Unmarshal payload = inl mqttMsg →
  ∃ st',
    StopDeviceUpdates st = Returned () st'
    ∧ chans st' = <[c := Chan (buf q) (cap q) true]> (chans st)
    ∧ routes (mqtt (svc st')) !! topic_of st h = Some h
    ∧ deliver (topic_of st h) payload st' = Panicked "send on closed channel" st'.
Proof.
  intros HA Hq Hack E. pose proof (Active_route c st h HA) as Hr.
  destruct HA as (Hu & (q' & Hq' & Hopen) & _).
  rewrite Hq in Hq'. injection Hq' as <-.
  destruct st as [s cs evs]. cbn in Hu, Hq, Hack.
  unfold topic_of in *. topics. cbn in Hr.
  run. rewrite Hu. cbn -[insert delete lookup]. rewrite Hq. unfold chan_close. rewrite Hopen.
  eexists; split; [reflexivity|]. cbn -[insert delete lookup].
  split; [done|].
  match goal with |- ?P ∧ _ => assert (Hr' : P) end.
  { destruct h; rewrite Hack;
      rewrite ?lookup_unsubscribed by (intros E'%append_inj_r; discriminate E');
      exact Hr. }
  split; [exact Hr'|].
  unfold deliver. cbn -[insert delete lookup]. rewrite Hr'.
  rewrite (call_decoded _ _ _ _ _ E). unfold send. cbn -[insert delete lookup]. rewrite Hu.
  rewrite list_lookup_insert_eq by (by eapply lookup_lt_Some). done.
Qed.

End WithRuntime.
#[local] Existing Instance Stub.runtime.



(** The started stub, facing a broker that will reject the third
    Unsubscribe. *)
Lemma Stub_refusing_active : Active 0 (with_acks Stub.active [] [None; None; Some "timeout"]).
Proof.
  split; [reflexivity|]. split; [by eexists|].
  repeat split; vm_compute; reflexivity.
Qed.

Lemma deliver_after_stop_witness :
  ∃ st',
    StopDeviceUpdates (with_acks Stub.active [] [None; None; Some "timeout"])
    = Returned () st'
    ∧ chans st' = [Chan [] deviceUpdatesBuffering true]
    ∧ routes (mqtt (svc st')) !! "openchirp/services/svc1/thing/update" = Some onThingUpdate
    ∧ deliver "openchirp/services/svc1/thing/update" "thing:dev1" st'
      = Panicked "send on closed channel" st'.
Proof.
  exact (deliver_after_stop (with_acks Stub.active [] [None; None; Some "timeout"]) 0
           (make_chan deviceUpdatesBuffering) onThingUpdate "timeout" "thing:dev1"
           (mkServiceUpdatesEncapsulation Stub.dev1)
           Stub_refusing_active eq_refl eq_refl eq_refl).
Defined.

End Executions.
